(** * Shallow embedding of the screening engine of src/screener.py

    [TomorrowsMoversScreener._apply_filters], [_calculate_momentum_score]
    and [get_screening_summary].  A pandas DataFrame is a list of rows;
    the two derived columns [trend_consistency] and [momentum_score] are
    optional fields of a row (absent until the scoring stage writes them).
    Numeric columns are modelled as exact rationals [Q]: the model covers
    finite values, with [*], [abs], comparisons and [round(_, 2)] read
    exactly (numpy rounds half to even at the second decimal). *)

From Stdlib Require Import QArith Qabs Qround List Bool Arith Lia.
From Stdlib Require Import String Ascii Sorted Permutation.
Import ListNotations.
Open Scope Q_scope.

(** ** Data model *)

Record Row := mkRow {
  symbol : string;
  current_price : Q;
  price_change_1d : Q;
  price_change_7d : Q;
  volume_24h : Z;
  avg_volume_7d : Q;
  volume_ratio : Q;
  trend_consistency : option Q;
  momentum_score : option Q
}.

Definition Frame := list Row.

(** Column assignment of a single row. *)
Definition set_trend_consistency (r : Row) (tc : Q) : Row :=
  mkRow (symbol r) (current_price r) (price_change_1d r) (price_change_7d r)
        (volume_24h r) (avg_volume_7d r) (volume_ratio r) (Some tc)
        (momentum_score r).

Definition set_momentum_score (r : Row) (m : Q) : Row :=
  mkRow (symbol r) (current_price r) (price_change_1d r) (price_change_7d r)
        (volume_24h r) (avg_volume_7d r) (volume_ratio r)
        (trend_consistency r) (Some m).

(** The seven input columns of a row (everything but the derived ones). *)
Definition base_fields (r : Row) :=
  (symbol r, current_price r, price_change_1d r, price_change_7d r,
   volume_24h r, avg_volume_7d r, volume_ratio r).

(** Strict comparison on [Q] as a boolean. *)
Definition Qlt_bool (x y : Q) : bool := negb (Qle_bool y x).

(** ** Rounding: [round(x, 2)] / [Series.round(2)], half to even *)

Definition round_half_even (q : Q) : Z :=
  let n := Qnum q in
  let d := Zpos (Qden q) in
  let f := (n / d)%Z in
  let r := (n mod d)%Z in
  match Z.compare (2 * r) d with
  | Lt => f
  | Gt => (f + 1)%Z
  | Eq => if Z.even f then f else (f + 1)%Z
  end.

Definition round2 (q : Q) : Q := Qred (round_half_even (q * 100) # 100).

(** ** Filter stage: [_apply_filters] *)

Definition apply_filters (df : Frame)
    (min_volume_ratio min_price_change_1d max_price_change_1d : Q) : Frame :=
  (* df = df[df['volume_ratio'] >= min_volume_ratio] *)
  let df := filter (fun r => Qle_bool min_volume_ratio (volume_ratio r)) df in
  (* df = df[(pc >= min) & (pc <= max)] *)
  let df := filter (fun r => Qle_bool min_price_change_1d (price_change_1d r)
                             && Qle_bool (price_change_1d r) max_price_change_1d) df in
  (* df.copy() *)
  df.

(** ** Scoring stage: [_calculate_momentum_score] *)

(** [same_direction = (df['price_change_1d'] * df['price_change_7d']) > 0] *)
Definition same_direction (r : Row) : bool :=
  Qlt_bool 0 (price_change_1d r * price_change_7d r).

(** [df['trend_consistency'] = 1.0] *)
Definition base_trend (r : Row) : Row := set_trend_consistency r 1.

(** [df.loc[same_direction, 'trend_consistency'] = 1.5] *)
Definition boost_trend (r : Row) : Row :=
  if same_direction r then set_trend_consistency r (3 # 2) else r.

(** [df['momentum_score'] = (vr * abs(pc1) * tc).round(2)] *)
Definition score_row (r : Row) : Row :=
  let tc := match trend_consistency r with Some t => t | None => 0 end in
  set_momentum_score r (round2 (volume_ratio r * Qabs (price_change_1d r) * tc)).

(** The sort key of [sort_values('momentum_score')]. *)
Definition ms_key (r : Row) : Q :=
  match momentum_score r with Some m => m | None => 0 end.

(** [sort_values('momentum_score', ascending=False)]: an insertion sort
    on the key, descending (numpy's sort of short arrays is an insertion
    sort; the order of ties is not relied upon below). *)
Fixpoint insert_desc (x : Row) (l : Frame) : Frame :=
  match l with
  | [] => [x]
  | y :: ys => if Qle_bool (ms_key y) (ms_key x) then x :: y :: ys
               else y :: insert_desc x ys
  end.

Fixpoint sort_desc (l : Frame) : Frame :=
  match l with
  | [] => []
  | x :: xs => insert_desc x (sort_desc xs)
  end.

(** The column assignments of the non-empty branch, in source order. *)
Definition annotate (df : Frame) : Frame :=
  map score_row (map boost_trend (map base_trend df)).

Definition calculate_momentum_score (df : Frame) : Frame :=
  if Nat.eqb (List.length df) 0 then df
  else sort_desc (annotate df).

(** ** Summary aggregator: [get_screening_summary] *)

Record Summary := mkSummary {
  total_found : nat;
  avg_volume_ratio : Q;
  avg_momentum_score : Q;
  top_categories : list string
}.

Fixpoint digits_aux (fuel n : nat) (acc : string) : string :=
  match fuel with
  | O => acc
  | S f =>
      let acc' := String (ascii_of_nat (48 + n mod 10)) acc in
      if Nat.ltb n 10 then acc' else digits_aux f (n / 10) acc'
  end.

(** [str(n)] for a natural number. *)
Definition str_of_nat (n : nat) : string := digits_aux (S n) n EmptyString.

Definition bullish_line (n : nat) : string :=
  ("Bullish Momentum: " ++ str_of_nat n ++ " assets")%string.

Definition bearish_line (n : nat) : string :=
  ("Bearish Momentum: " ++ str_of_nat n ++ " assets")%string.

Fixpoint Qsum (xs : list Q) : Q :=
  match xs with [] => 0 | x :: xs => x + Qsum xs end.

(** [Series.mean()] *)
Definition mean (xs : list Q) : Q := Qsum xs / inject_Z (Z.of_nat (List.length xs)).

(** Reading a column: [None] models the [KeyError] of a missing column. *)
Fixpoint column (f : Row -> option Q) (df : Frame) : option (list Q) :=
  match df with
  | [] => Some []
  | r :: rs =>
      match f r, column f rs with
      | Some x, Some xs => Some (x :: xs)
      | _, _ => None
      end
  end.

(** [df['price_change_1d'] > 0] and [df['price_change_1d'] < 0] *)
Definition is_bullish (r : Row) : bool := Qlt_bool 0 (price_change_1d r).
Definition is_bearish (r : Row) : bool := Qlt_bool (price_change_1d r) 0.

Definition get_screening_summary (df : Frame) : option Summary :=
  if Nat.eqb (List.length df) 0 then Some (mkSummary 0 0 0 [])
  else
    let bullish := filter is_bullish df in
    let bearish := filter is_bearish df in
    let categories :=
      (if Nat.ltb 0 (List.length bullish) then [bullish_line (List.length bullish)] else [])
      ++ (if Nat.ltb 0 (List.length bearish) then [bearish_line (List.length bearish)] else []) in
    match column momentum_score df with
    | None => None
    | Some ms =>
        Some (mkSummary (List.length df) (round2 (mean (map volume_ratio df)))
                        (round2 (mean ms)) categories)
    end.

(** ** The caller's tables as a shared store

    Python passes DataFrames by reference, and [_calculate_momentum_score]
    assigns columns on the frame it is given before [sort_values] builds a
    new one.  A store maps locations to frames; [store_alloc] creates a new
    frame at the next free location. *)

Record Store := mkStore {
  next_loc : nat;
  heap : nat -> Frame
}.

Definition store_write (st : Store) (l : nat) (df : Frame) : Store :=
  mkStore (next_loc st) (fun l' => if Nat.eqb l' l then df else heap st l').

Definition store_alloc (st : Store) (df : Frame) : Store * nat :=
  (mkStore (S (next_loc st))
           (fun l' => if Nat.eqb l' (next_loc st) then df else heap st l'),
   next_loc st).

(** [_apply_filters] on the frame at [l]: boolean indexing and [.copy()]
    build a new frame; the caller's frame is only read. *)
Definition apply_filters_st (st : Store) (l : nat)
    (min_volume_ratio min_price_change_1d max_price_change_1d : Q) : Store * nat :=
  store_alloc st (apply_filters (heap st l)
                    min_volume_ratio min_price_change_1d max_price_change_1d).

(** [_calculate_momentum_score] on the frame at [l], statement by
    statement: the empty branch returns the caller's frame itself; the
    three column assignments write into the caller's frame; [sort_values]
    allocates the result. *)
Definition calculate_momentum_score_st (st : Store) (l : nat) : Store * nat :=
  if Nat.eqb (List.length (heap st l)) 0 then (st, l)
  else
    let st1 := store_write st l (map base_trend (heap st l)) in
    let st2 := store_write st1 l (map boost_trend (heap st1 l)) in
    let st3 := store_write st2 l (map score_row (heap st2 l)) in
    store_alloc st3 (sort_desc (heap st3 l)).

(** [get_screening_summary] on the frame at [l]: it only reads it, the
    store is returned as it was. *)
Definition get_screening_summary_st (st : Store) (l : nat) : Store * option Summary :=
  (st, get_screening_summary (heap st l)).

(** One row through the three column assignments. *)
Definition annotate_row (r : Row) : Row := score_row (boost_trend (base_trend r)).

(** The frame a call returns: the result location read in the result store. *)
Definition scored_frame (res : Store * nat) : Frame := heap (fst res) (snd res).

(** Scenario A of the spec: [volume_ratio] 3.0 ([volume_24h] 1200 over
    [avg_volume_7d] 400), [price_change_1d] 5.0, [price_change_7d] 10.0. *)
Definition scenario_A : Row := mkRow "A" 100 5 10 1200 400 3 None None.

(** Scenario B: as Scenario A with [price_change_7d] -10.0. *)
Definition scenario_B : Row := mkRow "B" 100 5 (-10) 1200 400 3 None None.

(** Scenario C: two rows with [volume_ratio] 1.0 and 2.5. *)
Definition scenario_C_low : Row := mkRow "CL" 10 1 1 500 500 1 None None.
Definition scenario_C_high : Row := mkRow "CH" 10 1 1 1250 500 (5 # 2) None None.

(** Scenario D: a bearish row with [price_change_1d] -3. *)
Definition scenario_D : Row := mkRow "D" 20 (-3) (-6) 900 300 3 None None.

(** A caller holding one unscored frame at location 0. *)
Definition caller_store : Store := mkStore 1 (fun _ => [scenario_A]).

(** The same frame held at location 2 of another store. *)
Definition other_store : Store :=
  mkStore 3 (fun l => if Nat.eqb l 2 then [scenario_A] else []).

(** ** Pipelines: [screen_movers] and app.py's [apply_screening_filters] *)

(** [screen_movers] once the snapshot is fetched: [_apply_filters]
    builds a new frame, [_calculate_momentum_score] runs on it. *)
Definition screen_movers_st (st : Store) (l : nat) (mv mn mx : Q) : Store * nat :=
  let (st1, l1) := apply_filters_st st l mv mn mx in
  calculate_momentum_score_st st1 l1.

(** app.py [apply_screening_filters]: each boolean indexing builds a new
    frame, [.copy()] one more, and the scoring runs on the copy. *)
Definition app_apply_screening_filters_st (st : Store) (l : nat) (mv mn mx : Q)
    : Store * nat :=
  let (st1, l1) := store_alloc st
      (filter (fun r => Qle_bool mv (volume_ratio r)) (heap st l)) in
  let (st2, l2) := store_alloc st1
      (filter (fun r => Qle_bool mn (price_change_1d r)
                        && Qle_bool (price_change_1d r) mx) (heap st1 l1)) in
  let (st3, l3) := store_alloc st2 (heap st2 l2) in
  calculate_momentum_score_st st3 l3.

(** ** Symbol universe: config.py and the providers' symbol lists *)

(** Python's slice [lst[:k]]. *)
Definition py_take {A} (k : Z) (l : list A) : list A :=
  if Z.leb 0 k then firstn (Z.to_nat k) l
  else firstn (List.length l - Z.to_nat (- k)) l.

Definition STOCK_SYMBOLS : list string :=
  ["AAPL"; "MSFT"; "GOOGL"; "AMZN"; "META"; "NVDA"; "NFLX";
   "ORCL"; "CRM"; "ADBE"; "SNOW"; "PLTR"; "ZM"; "DOCU"; "TWLO";
   "AMD"; "INTC";
   "PYPL"; "SQ"; "COIN"; "HOOD";
   "UBER"; "ABNB"; "TSLA";
   "ROKU"; "PINS"; "SNAP"; "SPOT"; "RBLX"; "SHOP"]%string.

Definition CRYPTO_SYMBOLS : list string := ["BTC-USD"; "ETH-USD"]%string.

(** [MockDataProvider.mock_symbols] *)
Definition mock_symbols : list string := STOCK_SYMBOLS ++ CRYPTO_SYMBOLS.

(** [MockDataProvider.get_top_symbols] *)
Definition mock_get_top_symbols (limit : Z) : list string := py_take limit mock_symbols.

(** [OpenBBDataProvider.get_top_symbols] *)
Definition openbb_get_top_symbols (limit : Z) : list string :=
  let all_symbols := STOCK_SYMBOLS ++ CRYPTO_SYMBOLS in
  py_take limit all_symbols.

(** [str.upper] on ASCII characters. *)
Definition ascii_upper (c : ascii) : ascii :=
  let n := nat_of_ascii c in
  if Nat.leb 97 n && Nat.leb n 122 then ascii_of_nat (n - 32) else c.

Fixpoint str_upper (s : string) : string :=
  match s with
  | EmptyString => EmptyString
  | String c s' => String (ascii_upper c) (str_upper s')
  end.

(** Python's [needle in hay] on strings. *)
Fixpoint contains (needle hay : string) : bool :=
  if prefix needle hay then true
  else match hay with
       | EmptyString => false
       | String _ hay' => contains needle hay'
       end.

Fixpoint is_ascii (s : string) : bool :=
  match s with
  | EmptyString => true
  | String c s' => Nat.ltb (nat_of_ascii c) 128 && is_ascii s'
  end.

(** The dictionaries [{"symbol": s, "name": ...}] of a search. *)
Record SymbolInfo := mkSymbolInfo { info_symbol : string; info_name : string }.

(** [MockDataProvider.search_symbols] *)
Definition mock_search_symbols (query : string) (limit : Z) : list SymbolInfo :=
  let matches := filter (fun s => contains (str_upper query) (str_upper s)) mock_symbols in
  map (fun s => mkSymbolInfo s (s ++ " Mock Company")) (py_take limit matches).

(** [OpenBBDataProvider.search_symbols] (its [try] guards nothing that can
    raise on strings). *)
Definition openbb_search_symbols (query : string) (limit : Z) : list SymbolInfo :=
  let stock_matches := filter (fun s => contains (str_upper query) (str_upper s)) STOCK_SYMBOLS in
  let crypto_matches := filter (fun s => contains (str_upper query) (str_upper s)) CRYPTO_SYMBOLS in
  let all_matches := stock_matches ++ crypto_matches in
  map (fun s => mkSymbolInfo s (s ++ " (OpenBB)")) (py_take limit all_matches).

(** ** OpenBB provider: [_process_market_data], [_fetch_symbol_data_async],
    [get_market_data]

    The historical rows that [_get_historical_data] returns are the input
    (the network call is not modelled); a row is its [close] and [volume].
    Divisions are exact: the theorems below assume non-zero closes and a
    positive average volume, where Python divides without raising. *)

Record Candle := mkCandle { close : Q; volume : Q }.
Definition History := list Candle.

Inductive Result (A : Type) : Type :=
| Ok (a : A)
| Err (msg : string).
Arguments Ok {A} a.
Arguments Err {A} msg.

(** [int(x)]: truncation toward zero. *)
Definition py_int (q : Q) : Z :=
  if Qlt_bool q 0 then (- Qfloor (- q))%Z else Qfloor q.

(** [historical_data.iloc[-k]] for [1 <= k <= len]. *)
Definition iloc_back (h : History) (k : nat) : Candle :=
  nth (List.length h - k) h (mkCandle 0 0).

(** [Series.tail(n)] *)
Definition tail_n {A} (n : nat) (l : list A) : list A := skipn (List.length l - n) l.

Definition insufficient_msg (symbol : string) (need got : nat) : string :=
  ("Insufficient historical data for " ++ symbol ++ ". Need at least "
   ++ str_of_nat need ++ " days, got " ++ str_of_nat got)%string.

Definition process_market_data (symbol : string) (h : History) : Result Row :=
  let n := List.length h in
  if Nat.ltb n 2 then Err (insufficient_msg symbol 2 n) else
  let latest_close := close (iloc_back h 1) in
  let prev_close := close (iloc_back h 2) in
  let price_change_1d := (latest_close - prev_close) / prev_close * 100 in
  if Nat.ltb n 7 then Err (insufficient_msg symbol 7 n) else
  let week_ago_close := close (iloc_back h 7) in
  let price_change_7d := (latest_close - week_ago_close) / week_ago_close * 100 in
  let current_volume := volume (iloc_back h 1) in
  let avg_volume_7d := mean (map volume (tail_n 7 h)) in
  let volume_ratio := current_volume / avg_volume_7d in
  Ok (mkRow symbol (round2 latest_close) (round2 price_change_1d)
            (round2 price_change_7d) (py_int current_volume)
            (inject_Z (py_int avg_volume_7d)) (round2 volume_ratio) None None).

(** What one task of [asyncio.gather(..., return_exceptions=True)] yields. *)
Inductive FetchResult :=
| Fetched (r : Row)
| FetchedNone
| FetchFailed (msg : string).

(** [_fetch_symbol_data_async], given what [_get_historical_data] returned. *)
Definition fetch_symbol_data (symbol : string) (hist : option History) : FetchResult :=
  match hist with
  | None => FetchedNone
  | Some h =>
      match process_market_data symbol h with
      | Ok r => Fetched r
      | Err e => FetchFailed ("Error processing " ++ symbol ++ ": " ++ e)%string
      end
  end.

Definition connection_error_msg : string := "❌ OpenBB Data Fetch Failed
            
            No market data could be retrieved from OpenBB. This could be due to:
            • Network connectivity issues
            • OpenBB API service problems
            • Rate limiting or authentication issues
            • Invalid symbols or API endpoints
            
            Please check:
            1. Your internet connection
            2. OpenBB service status
            3. Try refreshing the data
            
            If problems persist, you may need to switch to mock data in config.py".

(** The rows kept by the loop over the gathered results. *)
Fixpoint collect_data (results : list FetchResult) : Frame :=
  match results with
  | [] => []
  | Fetched r :: rs => r :: collect_data rs
  | _ :: rs => collect_data rs
  end.

(** [OpenBBDataProvider.get_market_data] from the gathered results
    (the progress prints are not modelled). *)
Definition openbb_get_market_data (results : list FetchResult) : Result Frame :=
  let data := collect_data results in
  if Nat.eqb (List.length data) 0 then Err connection_error_msg else Ok data.

(** The whole fetch: one task per symbol, on that symbol's history. *)
Definition openbb_market_data_from (symbols : list string) (hists : list (option History))
    : Result Frame :=
  openbb_get_market_data (map (fun '(s, h) => fetch_symbol_data s h) (combine symbols hists)).

(** ** Mock provider: [MockDataProvider.get_market_data]

    The values of [random.random()] a row consumes are its input. *)

(** [random.uniform(a, b)] is [a + (b - a) * random()]. *)
Definition uniform (a b u : Q) : Q := a + (b - a) * u.

(** [bisect.bisect_right(a, x, 0, hi)] *)
Fixpoint bisect_right (a : list Q) (x : Q) : nat :=
  match a with
  | [] => O
  | c :: cs => if Qlt_bool x c then O else S (bisect_right cs x)
  end.

(** [random.choices(population, weights)[0]]: cumulative weights, then
    [population[bisect(cum_weights, random() * total, 0, n - 1)]]. *)
Fixpoint accumulate (acc : Q) (ws : list Q) : list Q :=
  match ws with
  | [] => []
  | w :: ws' => (acc + w) :: accumulate (acc + w) ws'
  end.

Definition choices (population weights : list Q) (u : Q) : Q :=
  let cum_weights := accumulate 0 weights in
  let total := last cum_weights 0 in
  let hi := (List.length population - 1)%nat in
  nth (bisect_right (firstn hi cum_weights) (u * total)) population 0.

Definition volume_multipliers : list Q := [1; 3 # 2; 2; 3; 5].
Definition volume_weights : list Q := [60; 20; 10; 7; 3].

(** The five [random()] values of one row, in the order they are drawn. *)
Record Draws := mkDraws { r_price : Q; r_1d : Q; r_7d : Q; r_volume : Q; r_choice : Q }.

Definition mock_row (symbol : string) (d : Draws) : Row :=
  let base_price := if contains "-USD" symbol then uniform (1 # 100) 100000 (r_price d)
                    else uniform 10 1000 (r_price d) in
  let price_change_1d := uniform (-15) 15 (r_1d d) in
  let price_change_7d := price_change_1d + uniform (-10) 10 (r_7d d) in
  let base_volume := uniform 1000000 100000000 (r_volume d) in
  let volume_multiplier := choices volume_multipliers volume_weights (r_choice d) in
  let current_volume := base_volume * volume_multiplier in
  mkRow symbol (round2 base_price) (round2 price_change_1d) (round2 price_change_7d)
        (py_int current_volume) (inject_Z (py_int base_volume))
        (round2 (current_volume / base_volume)) None None.

Definition mock_get_market_data (symbols : list string) (draws : list Draws) : Frame :=
  map (fun '(s, d) => mock_row s d) (combine symbols draws).

(** ** Display: [format_for_display] *)

(** Digits of [round(|x| * 10^p)] (half to even), as Python's [f]
    format computes them. *)
Definition scaled_digits (p : nat) (x : Q) : Z :=
  round_half_even (Qabs x * inject_Z (10 ^ Z.of_nat p)).

Fixpoint zero_pad (w : nat) (s : string) : string :=
  match w with
  | O => s
  | S w' => if Nat.leb (S w') (String.length s) then s
            else zero_pad w' ("0" ++ s)%string
  end.

(** Thousands separators on reversed digits. *)
Fixpoint group3_rev (cs : list ascii) : list ascii :=
  match cs with
  | a :: b :: c :: ((_ :: _) as rest) => a :: b :: c :: ","%char :: group3_rev rest
  | _ => cs
  end.

Definition group_thousands (s : string) : string :=
  string_of_list_ascii (rev (group3_rev (rev (list_ascii_of_string s)))).

(** [f"{x:<sign><grouping>.<p>f}"]: [sign_plus] for the [+] flag,
    [grouping] for the [,] option. *)
Definition fmt_fixed (sign_plus grouping : bool) (p : nat) (x : Q) : string :=
  let n := scaled_digits p x in
  let scale := (10 ^ Z.of_nat p)%Z in
  let int_digits := str_of_nat (Z.to_nat (n / scale)) in
  let int_part := if grouping then group_thousands int_digits else int_digits in
  let sign := if Qlt_bool x 0 then "-"%string
              else if sign_plus then "+"%string else EmptyString in
  let frac := match p with
              | O => EmptyString
              | S _ => ("." ++ zero_pad p (str_of_nat (Z.to_nat (n mod scale))))%string
              end in
  (sign ++ int_part ++ frac)%string.

Definition up_glyph : string := "📈".
Definition down_glyph : string := "📉".

(** [lambda x: f"${x:,.2f}"] *)
Definition fmt_price (x : Q) : string := ("$" ++ fmt_fixed false true 2 x)%string.

(** [lambda x: f"{'📈' if x > 0 else '📉'} {x:+.1f}%"] *)
Definition fmt_change (x : Q) : string :=
  ((if Qlt_bool 0 x then up_glyph else down_glyph) ++ " " ++ fmt_fixed true false 1 x ++ "%")%string.

(** [lambda x: f"{x:.1f}x"] *)
Definition fmt_volume (x : Q) : string := (fmt_fixed false false 1 x ++ "x")%string.

Record DisplayRow := mkDisplayRow {
  d_symbol : string;
  d_price : string;
  d_change_1d : string;
  d_change_7d : string;
  d_volume_spike : string;
  d_momentum : Q
}.

Record DisplayTable := mkDisplayTable {
  d_columns : list string;
  d_rows : list DisplayRow
}.

Definition display_columns : list string :=
  ["Symbol"; "Price"; "1D Change"; "7D Change"; "Volume Spike"; "Momentum Score"]%string.

Definition display_row (r : Row) (m : Q) : DisplayRow :=
  mkDisplayRow (symbol r) (fmt_price (current_price r)) (fmt_change (price_change_1d r))
               (fmt_change (price_change_7d r)) (fmt_volume (volume_ratio r)) m.

(** [format_for_display]: an empty frame gives [pd.DataFrame()]; selecting
    [momentum_score] raises [KeyError] ([None]) when the column is absent. *)
Definition format_for_display (df : Frame) : option DisplayTable :=
  if Nat.eqb (List.length df) 0 then Some (mkDisplayTable [] [])
  else
    match column momentum_score df with
    | None => None
    | Some ms =>
        Some (mkDisplayTable display_columns
                (map (fun '(r, m) => display_row r m) (combine df ms)))
    end.

(** A history that [_get_historical_data] returned, as far as it is
    read: at least seven days. *)
Definition has_week (h : option History) : bool :=
  match h with Some h => Nat.leb 7 (List.length h) | None => false end.

(** Draws of [random()] in [[0, 1]]. *)
Definition unit_draws (d : Draws) : Prop :=
  0 <= r_price d <= 1 /\ 0 <= r_1d d <= 1 /\ 0 <= r_7d d <= 1 /\ 0 <= r_volume d <= 1.

(** Seven daily candles (close, volume), oldest first. *)
Definition sample_history : History :=
  [mkCandle 100 1000; mkCandle 101 1100; mkCandle 99 900; mkCandle 102 1000;
   mkCandle 103 1200; mkCandle 104 1000; mkCandle 106 2800].

Definition half_draws : Draws := mkDraws (1 # 2) (1 # 2) (1 # 2) (1 # 2) (1 # 2).

(** Non-increasing order of the sort key. *)
Definition desc (a b : Row) : Prop := ms_key b <= ms_key a.

(** ** Lemmas *)

Lemma Qlt_bool_iff (x y : Q) : Qlt_bool x y = true <-> x < y.
Proof.
  unfold Qlt_bool. rewrite negb_true_iff. split; intro H.
  - apply Qnot_le_lt. intro H'. apply Qle_bool_iff in H'. congruence.
  - destruct (Qle_bool y x) eqn:E; [|reflexivity].
    apply Qle_bool_iff in E. exfalso. apply (Qlt_not_le x y); assumption.
Qed.

Lemma Qle_bool_false (x y : Q) : Qle_bool x y = false <-> ~ x <= y.
Proof.
  split; intros H.
  - intro H'. apply Qle_bool_iff in H'. congruence.
  - destruct (Qle_bool x y) eqn:E; [|reflexivity].
    apply Qle_bool_iff in E. contradiction.
Qed.

Lemma in_apply_filters (df : Frame) mv mn mx r :
  In r (apply_filters df mv mn mx) <->
  In r df /\ mv <= volume_ratio r /\ mn <= price_change_1d r /\ price_change_1d r <= mx.
Proof.
  unfold apply_filters. rewrite !filter_In, andb_true_iff, !Qle_bool_iff.
  tauto.
Qed.

Lemma annotate_map (df : Frame) : annotate df = map annotate_row df.
Proof. unfold annotate, annotate_row. rewrite !map_map. reflexivity. Qed.

Lemma annotate_row_fields (r : Row) :
  base_fields (annotate_row r) = base_fields r /\
  trend_consistency (annotate_row r) =
    Some (if Qlt_bool 0 (price_change_1d r * price_change_7d r) then 3 # 2 else 1) /\
  momentum_score (annotate_row r) =
    Some (round2 (volume_ratio r * Qabs (price_change_1d r) *
                  (if Qlt_bool 0 (price_change_1d r * price_change_7d r) then 3 # 2 else 1))).
Proof.
  destruct r. unfold annotate_row, score_row, boost_trend, base_trend, same_direction,
    set_trend_consistency, set_momentum_score.
  simpl. destruct (Qlt_bool _ _); repeat split.
Qed.

Lemma annotate_row_idem (r : Row) : annotate_row (annotate_row r) = annotate_row r.
Proof.
  destruct r. unfold annotate_row, score_row, boost_trend, base_trend, same_direction,
    set_trend_consistency, set_momentum_score.
  simpl. destruct (Qlt_bool 0 (price_change_1d0 * price_change_7d0)) eqn:E;
    simpl; rewrite ?E; reflexivity.
Qed.

Lemma insert_desc_perm (x : Row) (l : Frame) : Permutation (insert_desc x l) (x :: l).
Proof.
  induction l as [|y ys IH]; simpl; [reflexivity|].
  destruct (Qle_bool (ms_key y) (ms_key x)); [reflexivity|].
  rewrite IH. apply perm_swap.
Qed.

Lemma sort_desc_perm (l : Frame) : Permutation (sort_desc l) l.
Proof.
  induction l as [|x xs IH]; simpl; [reflexivity|].
  rewrite insert_desc_perm. apply perm_skip, IH.
Qed.

Lemma insert_desc_sorted (x : Row) (l : Frame) :
  Sorted desc l -> Sorted desc (insert_desc x l).
Proof.
  induction l as [|y ys IH]; intros Hs; simpl.
  - repeat constructor.
  - destruct (Qle_bool (ms_key y) (ms_key x)) eqn:E.
    + constructor; [exact Hs|]. constructor. unfold desc. apply Qle_bool_iff, E.
    + apply Sorted_inv in Hs as [Hys Hhd].
      constructor; [apply IH, Hys|].
      apply Qle_bool_false, Qnot_le_lt in E.
      destruct ys as [|z zs]; simpl.
      * constructor. unfold desc. apply Qlt_le_weak, E.
      * destruct (Qle_bool (ms_key z) (ms_key x)); constructor; unfold desc.
        -- apply Qlt_le_weak, E.
        -- inversion Hhd; assumption.
Qed.

Lemma sort_desc_sorted (l : Frame) : Sorted desc (sort_desc l).
Proof.
  induction l as [|x xs IH]; simpl; [constructor|].
  apply insert_desc_sorted, IH.
Qed.

Lemma sort_desc_strongly_sorted (l : Frame) : StronglySorted desc (sort_desc l).
Proof.
  apply Sorted_StronglySorted; [|apply sort_desc_sorted].
  intros a b c Hab Hbc. unfold desc in *. eapply Qle_trans; eassumption.
Qed.

Lemma strongly_sorted_nth {A} (R : A -> A -> Prop) (l : list A) i j a b :
  StronglySorted R l -> (i < j)%nat ->
  nth_error l i = Some a -> nth_error l j = Some b -> R a b.
Proof.
  revert i j. induction l as [|x xs IH]; intros i j Hs Hij Ha Hb.
  - destruct i; discriminate.
  - apply StronglySorted_inv in Hs as [Hxs Hall].
    destruct i as [|i]; destruct j as [|j]; try lia; simpl in Ha, Hb.
    + injection Ha as <-. rewrite Forall_forall in Hall.
      apply Hall. eapply nth_error_In; eassumption.
    + apply (IH i j); auto; lia.
Qed.

Lemma calculate_momentum_score_perm (df : Frame) :
  Permutation (calculate_momentum_score df) (map annotate_row df).
Proof.
  unfold calculate_momentum_score.
  destruct df as [|r rs]; [constructor|].
  change (Nat.eqb (List.length (r :: rs)) 0) with false; cbv iota.
  rewrite sort_desc_perm, annotate_map. reflexivity.
Qed.

Lemma in_calculate_momentum_score (df : Frame) r' :
  In r' (calculate_momentum_score df) <-> exists r, In r df /\ r' = annotate_row r.
Proof.
  split.
  - intros H. eapply Permutation_in in H; [|apply calculate_momentum_score_perm].
    apply in_map_iff in H as [r [<- Hr]]. eauto.
  - intros [r [Hr ->]]. eapply Permutation_in;
      [symmetry; apply calculate_momentum_score_perm|].
    apply in_map, Hr.
Qed.

Lemma heap_store_write st l df l' :
  heap (store_write st l df) l' = if Nat.eqb l' l then df else heap st l'.
Proof. reflexivity. Qed.

Lemma calculate_momentum_score_st_empty st l :
  heap st l = [] -> calculate_momentum_score_st st l = (st, l).
Proof. intros H. unfold calculate_momentum_score_st. rewrite H. reflexivity. Qed.

Lemma calculate_momentum_score_st_nonempty st l :
  (l < next_loc st)%nat -> heap st l <> [] ->
  snd (calculate_momentum_score_st st l) = next_loc st /\
  heap (fst (calculate_momentum_score_st st l)) (next_loc st) =
    sort_desc (annotate (heap st l)) /\
  heap (fst (calculate_momentum_score_st st l)) l = annotate (heap st l) /\
  (forall l', l' <> l -> l' <> next_loc st ->
     heap (fst (calculate_momentum_score_st st l)) l' = heap st l').
Proof.
  intros Hl Hne. unfold calculate_momentum_score_st.
  destruct (Nat.eqb (List.length (heap st l)) 0) eqn:E.
  { apply Nat.eqb_eq, length_zero_iff_nil in E. contradiction. }
  assert (Hneq : Nat.eqb l (next_loc st) = false) by (apply Nat.eqb_neq; lia).
  simpl. rewrite !Nat.eqb_refl, Hneq. repeat split.
  intros l' H1 H2. apply Nat.eqb_neq in H1, H2. rewrite H1, H2. reflexivity.
Qed.

Lemma calculate_momentum_score_st_result st l :
  heap (fst (calculate_momentum_score_st st l)) (snd (calculate_momentum_score_st st l)) =
  calculate_momentum_score (heap st l).
Proof.
  unfold calculate_momentum_score_st, calculate_momentum_score.
  destruct (Nat.eqb (List.length (heap st l)) 0); [reflexivity|].
  simpl. rewrite !Nat.eqb_refl. reflexivity.
Qed.

Lemma column_some (df : Frame) :
  Forall (fun r => momentum_score r <> None) df ->
  exists ms, column momentum_score df = Some ms.
Proof.
  induction 1 as [|r rs Hr _ [ms IH]]; simpl; [eauto|].
  destruct (momentum_score r) as [m|]; [|contradiction].
  rewrite IH. eauto.
Qed.

Lemma bullish_bearish_line_neq n m : bullish_line n <> bearish_line m.
Proof. unfold bullish_line, bearish_line. simpl. congruence. Qed.

Lemma filter_nonempty {A} (f : A -> bool) (l : list A) :
  (0 < List.length (filter f l))%nat <-> exists x, In x l /\ f x = true.
Proof.
  split.
  - intros H. destruct (filter f l) as [|x xs] eqn:E; simpl in H; [lia|].
    exists x. apply filter_In. rewrite E. left; reflexivity.
  - intros [x Hx]. apply (filter_In f x l) in Hx.
    destruct (filter f l); [contradiction|simpl; lia].
Qed.

(** Every row is bullish, bearish or flat, exactly one of them. *)
Lemma count_partition (df : Frame) :
  (List.length (filter is_bullish df) + List.length (filter is_bearish df)
   + List.length (filter (fun r => Qeq_bool (price_change_1d r) 0) df))%nat
  = List.length df.
Proof.
  induction df as [|r rs IH]; simpl; [reflexivity|].
  unfold is_bullish at 1, is_bearish at 1.
  destruct (Q_dec 0 (price_change_1d r)) as [[H|H]|H].
  - assert (E1 : Qlt_bool 0 (price_change_1d r) = true) by (apply Qlt_bool_iff; exact H).
    assert (E2 : Qlt_bool (price_change_1d r) 0 = false).
    { destruct (Qlt_bool (price_change_1d r) 0) eqn:E; [|reflexivity].
      apply Qlt_bool_iff in E. exfalso. apply (Qlt_irrefl 0).
      eapply Qlt_trans; eassumption. }
    assert (E3 : Qeq_bool (price_change_1d r) 0 = false).
    { destruct (Qeq_bool (price_change_1d r) 0) eqn:E; [|reflexivity].
      apply Qeq_bool_iff in E. rewrite E in H. exfalso. apply (Qlt_irrefl 0 H). }
    rewrite E1, E2, E3. simpl. lia.
  - assert (E1 : Qlt_bool 0 (price_change_1d r) = false).
    { destruct (Qlt_bool 0 (price_change_1d r)) eqn:E; [|reflexivity].
      apply Qlt_bool_iff in E. exfalso. apply (Qlt_irrefl 0).
      eapply Qlt_trans; eassumption. }
    assert (E2 : Qlt_bool (price_change_1d r) 0 = true) by (apply Qlt_bool_iff; exact H).
    assert (E3 : Qeq_bool (price_change_1d r) 0 = false).
    { destruct (Qeq_bool (price_change_1d r) 0) eqn:E; [|reflexivity].
      apply Qeq_bool_iff in E. rewrite E in H. exfalso. apply (Qlt_irrefl 0 H). }
    rewrite E1, E2, E3. simpl. lia.
  - assert (E1 : Qlt_bool 0 (price_change_1d r) = false).
    { destruct (Qlt_bool 0 (price_change_1d r)) eqn:E; [|reflexivity].
      apply Qlt_bool_iff in E. rewrite <- H in E. exfalso. apply (Qlt_irrefl 0 E). }
    assert (E2 : Qlt_bool (price_change_1d r) 0 = false).
    { destruct (Qlt_bool (price_change_1d r) 0) eqn:E; [|reflexivity].
      apply Qlt_bool_iff in E. rewrite <- H in E. exfalso. apply (Qlt_irrefl 0 E). }
    assert (E3 : Qeq_bool (price_change_1d r) 0 = true) by (apply Qeq_bool_iff; symmetry; exact H).
    rewrite E1, E2, E3. simpl. lia.
Qed.

Lemma filter_length_mono {A} (f g : A -> bool) (l : list A) :
  (forall x, f x = true -> g x = true) ->
  (List.length (filter f l) <= List.length (filter g l))%nat.
Proof.
  intros Hfg. induction l as [|x xs IH]; simpl; [lia|].
  destruct (f x) eqn:Ef.
  - rewrite (Hfg x Ef). simpl. lia.
  - destruct (g x); simpl; lia.
Qed.

Lemma filter_filter_and {A} (p q : A -> bool) (l : list A) :
  filter q (filter p l) = filter (fun x => p x && q x) l.
Proof.
  induction l as [|x xs IH]; simpl; [reflexivity|].
  destruct (p x); simpl; [destruct (q x)|]; rewrite ?IH; reflexivity.
Qed.

(** ** Claims *)

(** C1: the Filter Stage keeps a row iff [volume_ratio >= min_volume_ratio]
    and [min_price_change_1d <= price_change_1d <= max_price_change_1d];
    it keeps the rows in input order, and every row it drops fails one of
    the three comparisons. *)
Theorem apply_filters_correct (df : Frame) (mv mn mx : Q) :
  apply_filters df mv mn mx =
    filter (fun r => Qle_bool mv (volume_ratio r)
                     && (Qle_bool mn (price_change_1d r) && Qle_bool (price_change_1d r) mx)) df /\
  (forall r, In r (apply_filters df mv mn mx) <->
     In r df /\ mv <= volume_ratio r /\ mn <= price_change_1d r /\ price_change_1d r <= mx) /\
  (forall r, In r df -> ~ In r (apply_filters df mv mn mx) ->
     volume_ratio r < mv \/ price_change_1d r < mn \/ mx < price_change_1d r).
Proof.
  split; [|split].
  - unfold apply_filters. apply filter_filter_and.
  - apply in_apply_filters.
  - intros r Hin Hout. rewrite in_apply_filters in Hout.
    destruct (Qlt_le_dec (volume_ratio r) mv) as [H1|H1]; [left; exact H1|].
    destruct (Qlt_le_dec (price_change_1d r) mn) as [H2|H2]; [right; left; exact H2|].
    destruct (Qlt_le_dec mx (price_change_1d r)) as [H3|H3]; [right; right; exact H3|].
    exfalso. apply Hout. auto.
Qed.

(** C2: every scored row has [trend_consistency] 1.5 when
    [price_change_1d * price_change_7d > 0] and 1.0 otherwise (1.0 when
    either change is zero), and [momentum_score =
    round(volume_ratio * abs(price_change_1d) * trend_consistency, 2)];
    Scenario A ([volume_ratio] 3.0, [price_change_1d] 5.0,
    [price_change_7d] 10.0) scores 22.5. *)
Theorem momentum_score_formula :
  (forall (df : Frame) r', In r' (calculate_momentum_score df) ->
     exists r, In r df /\ base_fields r' = base_fields r /\
       let tc := if Qlt_bool 0 (price_change_1d r * price_change_7d r) then 3 # 2 else 1 in
       trend_consistency r' = Some tc /\
       (0 < price_change_1d r * price_change_7d r -> trend_consistency r' = Some (3 # 2)) /\
       (~ 0 < price_change_1d r * price_change_7d r -> trend_consistency r' = Some 1) /\
       (price_change_1d r == 0 \/ price_change_7d r == 0 -> trend_consistency r' = Some 1) /\
       momentum_score r' = Some (round2 (volume_ratio r * Qabs (price_change_1d r) * tc))) /\
  (exists r', calculate_momentum_score [scenario_A] = [r'] /\
     trend_consistency r' = Some (3 # 2) /\
     exists m, momentum_score r' = Some m /\ m == 22.5).
Proof.
  split.
  - intros df r' Hin. apply in_calculate_momentum_score in Hin as [r [Hr ->]].
    exists r. destruct (annotate_row_fields r) as [Hb [Ht Hm]].
    split; [exact Hr|]. split; [exact Hb|]. cbv zeta.
    assert (Hfalse : ~ 0 < price_change_1d r * price_change_7d r ->
                     Qlt_bool 0 (price_change_1d r * price_change_7d r) = false).
    { intros Hn. destruct (Qlt_bool 0 _) eqn:E; [|reflexivity].
      apply Qlt_bool_iff in E. contradiction. }
    split; [exact Ht|]. split; [|split; [|split]].
    + intros Hp. apply Qlt_bool_iff in Hp. rewrite Ht, Hp. reflexivity.
    + intros Hn. rewrite Ht, (Hfalse Hn). reflexivity.
    + intros Hz. rewrite Ht, Hfalse; [reflexivity|].
      intros Hp. destruct Hz as [Hz|Hz]; rewrite Hz in Hp;
        [rewrite Qmult_0_l in Hp | rewrite Qmult_0_r in Hp];
        apply (Qlt_irrefl 0 Hp).
    + exact Hm.
  - exists (annotate_row scenario_A). split; [reflexivity|].
    split; [reflexivity|]. exists (45 # 2). split; [vm_compute; reflexivity|].
    reflexivity.
Qed.

(** C3: the output of the Scoring Stage is non-increasing in
    [momentum_score]: a row placed before another has a score at least as
    large. *)
Theorem calculate_momentum_score_sorted (df : Frame) (i j : nat) (a b : Row) :
  (i < j)%nat ->
  nth_error (calculate_momentum_score df) i = Some a ->
  nth_error (calculate_momentum_score df) j = Some b ->
  exists ma mb, momentum_score a = Some ma /\ momentum_score b = Some mb /\ mb <= ma.
Proof.
  intros Hij Ha Hb.
  assert (Hma : forall x, In x (calculate_momentum_score df) ->
                exists m, momentum_score x = Some m /\ ms_key x = m).
  { intros x Hx. apply in_calculate_momentum_score in Hx as [r [_ ->]].
    destruct (annotate_row_fields r) as [_ [_ Hm]].
    unfold ms_key. rewrite Hm. eauto. }
  destruct (Hma a (nth_error_In _ _ Ha)) as [ma [Ea Ka]].
  destruct (Hma b (nth_error_In _ _ Hb)) as [mb [Eb Kb]].
  exists ma, mb. split; [exact Ea|]. split; [exact Eb|].
  rewrite <- Ka, <- Kb.
  unfold calculate_momentum_score in Ha, Hb.
  destruct (Nat.eqb (List.length df) 0) eqn:E.
  - apply Nat.eqb_eq, length_zero_iff_nil in E. subst df. destruct i; discriminate.
  - apply (strongly_sorted_nth desc (sort_desc (annotate df)) i j);
      auto using sort_desc_strongly_sorted.
Qed.

Lemma categories_spec (nb ns : nat) :
  let cats := (if Nat.ltb 0 nb then [bullish_line nb] else [])
              ++ (if Nat.ltb 0 ns then [bearish_line ns] else []) in
  ((exists n, In (bullish_line n) cats) <-> (0 < nb)%nat) /\
  ((exists n, In (bearish_line n) cats) <-> (0 < ns)%nat) /\
  ((0 < nb)%nat -> In (bullish_line nb) cats) /\
  ((0 < ns)%nat -> In (bearish_line ns) cats).
Proof.
  cbv zeta.
  destruct (Nat.ltb_spec 0 nb); destruct (Nat.ltb_spec 0 ns); simpl;
    repeat split; intros; try lia;
    repeat match goal with
    | H : exists _, _ |- _ => destruct H
    | H : _ \/ _ |- _ => destruct H
    | H : False |- _ => contradiction
    | H : bullish_line _ = bearish_line _ |- _ =>
        exfalso; eapply bullish_bearish_line_neq; exact H
    | H : bearish_line _ = bullish_line _ |- _ =>
        exfalso; eapply bullish_bearish_line_neq; symmetry; exact H
    end;
    eauto; try lia.
Qed.

(** C4: on a non-empty scored frame the summary counts all rows, averages
    [volume_ratio] and [momentum_score] (rounded to two decimals), and
    lists a bullish line exactly when some row has [price_change_1d > 0]
    and a bearish line exactly when some row has [price_change_1d < 0],
    each with its count; rows with [price_change_1d == 0] are in neither
    count but in [total_found]. *)
Theorem screening_summary_nonempty (df : Frame) :
  df <> [] -> Forall (fun r => momentum_score r <> None) df ->
  exists s ms, get_screening_summary df = Some s /\
    column momentum_score df = Some ms /\
    total_found s = List.length df /\
    avg_volume_ratio s = round2 (mean (map volume_ratio df)) /\
    avg_momentum_score s = round2 (mean ms) /\
    ((exists n, In (bullish_line n) (top_categories s)) <->
       exists r, In r df /\ 0 < price_change_1d r) /\
    ((exists n, In (bearish_line n) (top_categories s)) <->
       exists r, In r df /\ price_change_1d r < 0) /\
    ((0 < List.length (filter is_bullish df))%nat ->
       In (bullish_line (List.length (filter is_bullish df))) (top_categories s)) /\
    ((0 < List.length (filter is_bearish df))%nat ->
       In (bearish_line (List.length (filter is_bearish df))) (top_categories s)) /\
    (List.length (filter is_bullish df) + List.length (filter is_bearish df)
     + List.length (filter (fun r => Qeq_bool (price_change_1d r) 0) df))%nat
    = total_found s.
Proof.
  intros Hne Hms. destruct (column_some df Hms) as [ms Hcol].
  destruct (categories_spec (List.length (filter is_bullish df))
                            (List.length (filter is_bearish df))) as [Cb [Cs [Cb' Cs']]].
  unfold get_screening_summary.
  destruct (Nat.eqb (List.length df) 0) eqn:E.
  { apply Nat.eqb_eq, length_zero_iff_nil in E. contradiction. }
  eexists _, ms. rewrite Hcol. split; [reflexivity|]. simpl top_categories.
  split; [reflexivity|]. split; [reflexivity|]. split; [reflexivity|].
  split; [reflexivity|]. split; [|split; [|split; [|split]]].
  - rewrite Cb, filter_nonempty. unfold is_bullish.
    setoid_rewrite Qlt_bool_iff. reflexivity.
  - rewrite Cs, filter_nonempty. unfold is_bearish.
    setoid_rewrite Qlt_bool_iff. reflexivity.
  - exact Cb'.
  - exact Cs'.
  - apply count_partition.
Qed.

(** C5: on an empty frame the Scoring Stage returns it as it is, writing
    nothing (the caller's store is left as it was and the result is the
    caller's own frame), and the summary is
    [{total_found: 0, avg_volume_ratio: 0, avg_momentum_score: 0,
    top_categories: []}]. *)
Theorem empty_input_identity :
  calculate_momentum_score [] = [] /\
  get_screening_summary [] = Some (mkSummary 0 0 0 []) /\
  (forall st l, heap st l = [] -> calculate_momentum_score_st st l = (st, l)).
Proof.
  split; [reflexivity|]. split; [reflexivity|].
  exact calculate_momentum_score_st_empty.
Qed.

(** C6: with [min_price_change_1d > max_price_change_1d] the Filter Stage
    returns the empty frame (no error is possible: the function is total). *)
Theorem apply_filters_inverted_bounds (df : Frame) (mv mn mx : Q) :
  mx < mn -> apply_filters df mv mn mx = [].
Proof.
  intros Hlt. destruct (apply_filters df mv mn mx) as [|r rs] eqn:E; [reflexivity|].
  exfalso. assert (Hin : In r (apply_filters df mv mn mx)) by (rewrite E; left; reflexivity).
  apply in_apply_filters in Hin as [_ [_ [H1 H2]]].
  apply (Qlt_irrefl mn). eapply Qle_lt_trans; [exact H1|].
  eapply Qle_lt_trans; [exact H2|exact Hlt].
Qed.

(** C7: raising [min_volume_ratio] (price bounds fixed) keeps only rows
    already kept, so the filtered frame never grows. *)
Theorem apply_filters_monotone (df : Frame) (mv mv' mn mx : Q) :
  mv <= mv' ->
  incl (apply_filters df mv' mn mx) (apply_filters df mv mn mx) /\
  (List.length (apply_filters df mv' mn mx) <= List.length (apply_filters df mv mn mx))%nat.
Proof.
  intros Hle. split.
  - intros r Hr. apply in_apply_filters in Hr as [Hr [Hv Hp]].
    apply in_apply_filters. split; [exact Hr|]. split; [|exact Hp].
    eapply Qle_trans; eassumption.
  - unfold apply_filters. rewrite !filter_filter_and.
    apply filter_length_mono. intros r Hr.
    apply andb_true_iff in Hr as [Hv Hp]. rewrite Hp, andb_true_r.
    apply Qle_bool_iff. apply Qle_bool_iff in Hv. eapply Qle_trans; eassumption.
Qed.

(** C8, counterexample: scoring a caller's frame writes the derived
    columns into that frame; the frame at location 0 differs after the call. *)
Lemma calculate_momentum_score_mutates_caller :
  heap (fst (calculate_momentum_score_st caller_store 0)) 0 <> heap caller_store 0.
Proof. vm_compute. discriminate. Qed.

(** C8 (as amended): the Filter Stage and the Summary Aggregator leave
    every frame of the caller as it was, the Filter Stage returning a new
    frame; on an empty frame the Scoring Stage writes nothing and returns
    the caller's frame itself; on a non-empty frame it writes the columns
    [trend_consistency] and [momentum_score] into the caller's frame in
    place (same rows, same order, the seven input columns unchanged) and
    returns a new, sorted frame, every other frame staying as it was. *)
Theorem engine_frame_effects (st : Store) (l : nat) (mv mn mx : Q) :
  (l < next_loc st)%nat ->
  (snd (apply_filters_st st l mv mn mx) = next_loc st /\
   scored_frame (apply_filters_st st l mv mn mx) = apply_filters (heap st l) mv mn mx /\
   (forall l', l' <> next_loc st -> heap (fst (apply_filters_st st l mv mn mx)) l' = heap st l')) /\
  fst (get_screening_summary_st st l) = st /\
  (heap st l = [] -> calculate_momentum_score_st st l = (st, l)) /\
  (heap st l <> [] ->
     snd (calculate_momentum_score_st st l) = next_loc st /\
     scored_frame (calculate_momentum_score_st st l) = calculate_momentum_score (heap st l) /\
     heap (fst (calculate_momentum_score_st st l)) l = map annotate_row (heap st l) /\
     map base_fields (heap (fst (calculate_momentum_score_st st l)) l) =
       map base_fields (heap st l) /\
     (forall l', l' <> l -> l' <> next_loc st ->
        heap (fst (calculate_momentum_score_st st l)) l' = heap st l')).
Proof.
  intros Hl. split; [|split; [reflexivity|split]].
  - unfold apply_filters_st, scored_frame, store_alloc. simpl.
    rewrite Nat.eqb_refl. split; [reflexivity|]. split; [reflexivity|].
    intros l' Hl'. apply Nat.eqb_neq in Hl'. rewrite Hl'. reflexivity.
  - apply calculate_momentum_score_st_empty.
  - intros Hne.
    destruct (calculate_momentum_score_st_nonempty st l Hl Hne) as [Ho [_ [Hh Hother]]].
    split; [exact Ho|]. split; [apply calculate_momentum_score_st_result|].
    rewrite Hh, annotate_map. split; [reflexivity|]. split; [|exact Hother].
    rewrite map_map. apply map_ext. intros r. apply annotate_row_fields.
Qed.

(** C9: the scored frame depends only on the rows given: two calls on
    frames with the same rows, wherever they are held, return the same
    rows (those of [calculate_momentum_score]), and calling it again on
    the caller's frame (which the first call has annotated) returns the
    same rows once more. *)
Theorem calculate_momentum_score_deterministic (st1 : Store) (l1 : nat) (st2 : Store) (l2 : nat) :
  heap st1 l1 = heap st2 l2 ->
  scored_frame (calculate_momentum_score_st st1 l1) =
    scored_frame (calculate_momentum_score_st st2 l2) /\
  scored_frame (calculate_momentum_score_st st1 l1) = calculate_momentum_score (heap st1 l1) /\
  ((l1 < next_loc st1)%nat ->
   scored_frame (calculate_momentum_score_st (fst (calculate_momentum_score_st st1 l1)) l1) =
     scored_frame (calculate_momentum_score_st st1 l1)).
Proof.
  intros Heq. unfold scored_frame. rewrite !calculate_momentum_score_st_result, Heq.
  split; [reflexivity|]. split; [reflexivity|].
  intros Hl. rewrite <- Heq.
  destruct (heap st1 l1) as [|r rs] eqn:E.
  - rewrite (calculate_momentum_score_st_empty st1 l1 E). simpl. rewrite E. reflexivity.
  - assert (Hne : heap st1 l1 <> []) by (rewrite E; discriminate).
    destruct (calculate_momentum_score_st_nonempty st1 l1 Hl Hne) as [_ [_ [Hh _]]].
    rewrite Hh, E. unfold calculate_momentum_score.
    change (Nat.eqb (List.length (r :: rs)) 0) with false.
    rewrite !annotate_map, map_map. simpl List.length. simpl Nat.eqb. cbv iota.
    f_equal. apply map_ext. apply annotate_row_idem.
Qed.

(** C10: the Scoring Stage neither drops nor adds rows: its output has
    the input's length and is a permutation of the input rows, each
    extended with [trend_consistency] and [momentum_score] and with its
    seven input columns unchanged. *)
Theorem calculate_momentum_score_rows (df : Frame) :
  List.length (calculate_momentum_score df) = List.length df /\
  Permutation (calculate_momentum_score df) (map annotate_row df) /\
  (forall r, base_fields (annotate_row r) = base_fields r /\
             trend_consistency (annotate_row r) <> None /\
             momentum_score (annotate_row r) <> None).
Proof.
  split; [|split].
  - rewrite (Permutation_length (calculate_momentum_score_perm df)). apply length_map.
  - apply calculate_momentum_score_perm.
  - intros r. destruct (annotate_row_fields r) as [Hb [Ht Hm]].
    rewrite Ht, Hm. split; [exact Hb|]. split; discriminate.
Qed.

(** ** Scenarios of the spec, evaluated *)

Example scenario_A_score :
  map momentum_score (calculate_momentum_score [scenario_A]) = [Some (45 # 2)].
Proof. vm_compute. reflexivity. Qed.

Example scenario_B_score :
  map trend_consistency (calculate_momentum_score [scenario_B]) = [Some 1] /\
  map momentum_score (calculate_momentum_score [scenario_B]) = [Some 15].
Proof. vm_compute. split; reflexivity. Qed.

Example scenario_C_filter :
  apply_filters [scenario_C_low; scenario_C_high] 2 (-50) 50 = [scenario_C_high].
Proof. vm_compute. reflexivity. Qed.

Example scenario_D_summary :
  option_map top_categories
    (get_screening_summary (calculate_momentum_score [scenario_A; scenario_D])) =
  Some ["Bullish Momentum: 1 assets"; "Bearish Momentum: 1 assets"]%string.
Proof. vm_compute. reflexivity. Qed.

(** ** Witnesses *)

Lemma calculate_momentum_score_sorted_witness :
  exists ma mb, momentum_score (annotate_row scenario_A) = Some ma /\
                momentum_score (annotate_row scenario_B) = Some mb /\ mb <= ma.
Proof.
  apply (calculate_momentum_score_sorted [scenario_B; scenario_A] 0 1);
    [lia | vm_compute; reflexivity | vm_compute; reflexivity].
Defined.

Lemma screening_summary_nonempty_witness :
  exists s, get_screening_summary (calculate_momentum_score [scenario_A; scenario_D]) = Some s /\
    total_found s = 2%nat /\
    In (bullish_line 1) (top_categories s) /\ In (bearish_line 1) (top_categories s).
Proof.
  destruct (screening_summary_nonempty (calculate_momentum_score [scenario_A; scenario_D]))
    as [s [ms [Hs [_ [Ht [_ [_ [_ [_ [Hb [Hr _]]]]]]]]]]].
  - vm_compute. discriminate.
  - vm_compute. repeat constructor; discriminate.
  - exists s. split; [exact Hs|]. split; [exact Ht|].
    split; [apply Hb | apply Hr]; vm_compute; lia.
Defined.

Lemma apply_filters_inverted_bounds_witness :
  apply_filters [scenario_A; scenario_D] 0 10 (-10) = [].
Proof. apply apply_filters_inverted_bounds. vm_compute. reflexivity. Defined.

Lemma apply_filters_monotone_witness :
  incl (apply_filters [scenario_C_low; scenario_C_high] 3 (-50) 50)
       (apply_filters [scenario_C_low; scenario_C_high] 2 (-50) 50) /\
  (List.length (apply_filters [scenario_C_low; scenario_C_high] 3 (-50) 50)
   <= List.length (apply_filters [scenario_C_low; scenario_C_high] 2 (-50) 50))%nat.
Proof. apply apply_filters_monotone. vm_compute. discriminate. Defined.

Lemma engine_frame_effects_witness :
  heap (fst (calculate_momentum_score_st caller_store 0)) 0 = map annotate_row [scenario_A].
Proof.
  destruct (engine_frame_effects caller_store 0 0 0 0) as [_ [_ [_ Hs]]].
  - vm_compute. reflexivity.
  - apply Hs. vm_compute. discriminate.
Defined.

Lemma calculate_momentum_score_deterministic_witness :
  scored_frame (calculate_momentum_score_st caller_store 0) =
  scored_frame (calculate_momentum_score_st other_store 2).
Proof.
  destruct (calculate_momentum_score_deterministic caller_store 0 other_store 2) as [H _].
  - vm_compute. reflexivity.
  - exact H.
Defined.

(** ** Rounding bounds *)

Lemma round_half_even_range (q : Q) :
  (Qfloor q <= round_half_even q <= Qfloor q + 1)%Z.
Proof.
  destruct q as [n d]. unfold round_half_even, Qfloor. simpl.
  destruct (Z.compare _ _); [destruct (Z.even _)|..]; lia.
Qed.

Lemma round_half_even_ge (q : Q) (k : Z) : inject_Z k <= q -> (k <= round_half_even q)%Z.
Proof.
  intros H. apply Qfloor_resp_le in H. rewrite Qfloor_Z in H.
  pose proof (round_half_even_range q). lia.
Qed.

Lemma round_half_even_le (q : Q) (k : Z) : q <= inject_Z k -> (round_half_even q <= k)%Z.
Proof.
  intros H. pose proof (Qfloor_resp_le _ _ H) as Hf. rewrite Qfloor_Z in Hf.
  pose proof (round_half_even_range q) as Hr.
  destruct (Z.eq_dec (Qfloor q) k) as [Hk|Hk]; [|lia].
  pose proof (Qfloor_le q) as Hl. rewrite Hk in Hl.
  assert (Hq : q == inject_Z k) by (apply Qle_antisym; assumption).
  destruct q as [n d]. unfold Qfloor in Hk. unfold round_half_even. simpl in *.
  unfold Qeq in Hq. simpl in Hq. rewrite Z.mul_1_r in Hq. subst n.
  rewrite Z.mod_mul by lia. simpl.
  rewrite Z.div_mul in Hk by lia. lia.
Qed.

Lemma round_half_even_int (q : Q) (k : Z) : q == inject_Z k -> round_half_even q = k.
Proof.
  intros H. apply Z.le_antisymm.
  - apply round_half_even_le. rewrite H. apply Qle_refl.
  - apply round_half_even_ge. rewrite H. apply Qle_refl.
Qed.

Lemma round2_le (x : Q) (k : Z) : x <= inject_Z k -> round2 x <= inject_Z k.
Proof.
  intros H. unfold round2. rewrite Qred_correct.
  assert (Hz : (round_half_even (x * 100) <= k * 100)%Z).
  { apply round_half_even_le. rewrite inject_Z_mult.
    apply Qmult_le_compat_r; [exact H|]. discriminate. }
  unfold Qle. simpl. lia.
Qed.

Lemma round2_ge (x : Q) (k : Z) : inject_Z k <= x -> inject_Z k <= round2 x.
Proof.
  intros H. unfold round2. rewrite Qred_correct.
  assert (Hz : (k * 100 <= round_half_even (x * 100))%Z).
  { apply round_half_even_ge. rewrite inject_Z_mult.
    apply Qmult_le_compat_r; [exact H|]. discriminate. }
  unfold Qle. simpl. lia.
Qed.

(** Decides the [Nat.eqb] tests on store locations. *)
Ltac eqb_simpl :=
  repeat match goal with
  | |- context [Nat.eqb ?a ?a] => rewrite Nat.eqb_refl
  | |- context [Nat.eqb ?a ?b] =>
      let E := fresh "E" in
      assert (E : Nat.eqb a b = false) by (apply Nat.eqb_neq; lia);
      rewrite E; clear E
  end.

(** ** Pipelines *)

Lemma calculate_momentum_score_st_other st l l' :
  l' <> l -> l' <> next_loc st ->
  heap (fst (calculate_momentum_score_st st l)) l' = heap st l'.
Proof.
  intros H1 H2. unfold calculate_momentum_score_st.
  destruct (Nat.eqb (List.length (heap st l)) 0); [reflexivity|].
  simpl. apply Nat.eqb_neq in H1, H2. rewrite H1, H2. reflexivity.
Qed.

Lemma calculate_momentum_score_strongly_sorted (df : Frame) :
  StronglySorted desc (calculate_momentum_score df).
Proof.
  unfold calculate_momentum_score.
  destruct (Nat.eqb (List.length df) 0) eqn:E.
  - apply Nat.eqb_eq, length_zero_iff_nil in E. subst. constructor.
  - apply sort_desc_strongly_sorted.
Qed.

(** X1: the screening pipeline ([_apply_filters] then
    [_calculate_momentum_score], as [screen_movers] runs them) returns
    the rows of the snapshot that meet the criteria, each scored, ranked
    by non-increasing score; every such row appears, none other. *)
Theorem screen_pipeline_rows (df : Frame) (mv mn mx : Q) :
  Permutation (calculate_momentum_score (apply_filters df mv mn mx))
              (map annotate_row (apply_filters df mv mn mx)) /\
  (forall r', In r' (calculate_momentum_score (apply_filters df mv mn mx)) <->
     exists r, In r df /\ r' = annotate_row r /\
       mv <= volume_ratio r /\ mn <= price_change_1d r /\ price_change_1d r <= mx) /\
  StronglySorted desc (calculate_momentum_score (apply_filters df mv mn mx)).
Proof.
  split; [apply calculate_momentum_score_perm|]. split.
  - intros r'. rewrite in_calculate_momentum_score. split.
    + intros [r [Hr ->]]. apply in_apply_filters in Hr. exists r. tauto.
    + intros [r [Hr [-> Hc]]]. exists r. split; [|reflexivity].
      apply in_apply_filters. tauto.
  - apply calculate_momentum_score_strongly_sorted.
Qed.

(** X2: app.py's [apply_screening_filters] and [screen_movers] return the
    same ranked frame, and neither modifies the raw snapshot passed in
    (the cached market data): the scoring only writes into the frames the
    filtering built. *)
Theorem pipelines_agree_keep_snapshot (st : Store) (l : nat) (mv mn mx : Q) :
  (l < next_loc st)%nat ->
  scored_frame (screen_movers_st st l mv mn mx) =
    calculate_momentum_score (apply_filters (heap st l) mv mn mx) /\
  scored_frame (app_apply_screening_filters_st st l mv mn mx) =
    calculate_momentum_score (apply_filters (heap st l) mv mn mx) /\
  heap (fst (screen_movers_st st l mv mn mx)) l = heap st l /\
  heap (fst (app_apply_screening_filters_st st l mv mn mx)) l = heap st l.
Proof.
  intros Hl. unfold screen_movers_st, app_apply_screening_filters_st,
    apply_filters_st, scored_frame.
  cbn [store_alloc fst snd].
  rewrite !calculate_momentum_score_st_result.
  rewrite !calculate_momentum_score_st_other by (cbn [next_loc]; lia).
  cbn [heap next_loc]. eqb_simpl. unfold apply_filters. repeat split.
Qed.

(** ** Symbol lists and search *)

Lemma py_take_prefix {A} (k : Z) (l : list A) : exists rest, l = py_take k l ++ rest.
Proof.
  unfold py_take. destruct (Z.leb 0 k); eexists; symmetry; apply firstn_skipn.
Qed.

Lemma py_take_in {A} (k : Z) (l : list A) x : In x (py_take k l) -> In x l.
Proof.
  intros H. destruct (py_take_prefix k l) as [rest E]. rewrite E. apply in_or_app. auto.
Qed.

Lemma py_take_length {A} (k : Z) (l : list A) :
  List.length (py_take k l) =
  (if Z.leb 0 k then Nat.min (Z.to_nat k) (List.length l)
   else List.length l - Z.to_nat (- k))%nat.
Proof.
  unfold py_take. destruct (Z.leb 0 k); rewrite length_firstn; lia.
Qed.

Lemma ascii_upper_idem (c : ascii) : ascii_upper (ascii_upper c) = ascii_upper c.
Proof. destruct c as [[] [] [] [] [] [] [] []]; reflexivity. Qed.

Lemma str_upper_idem (s : string) : str_upper (str_upper s) = str_upper s.
Proof.
  induction s as [|c s IH]; simpl; [reflexivity|]. rewrite ascii_upper_idem, IH. reflexivity.
Qed.

Lemma map_info_symbol (f : string -> string) (l : list string) :
  map info_symbol (map (fun s => mkSymbolInfo s (f s)) l) = l.
Proof. induction l as [|x xs IH]; simpl; [reflexivity|]. rewrite IH. reflexivity. Qed.

(** X3: [get_top_symbols(limit)] of both providers is Python's slice
    [symbols[:limit]] of the 32 configured symbols: a prefix of them, of
    length [min(limit, 32)] for [limit >= 0], and all but the last
    [-limit] symbols for a negative [limit]; [screen_movers]' [limit=100]
    takes all 32. *)
Theorem get_top_symbols_slice (limit : Z) :
  (exists rest, mock_symbols = mock_get_top_symbols limit ++ rest) /\
  List.length (mock_get_top_symbols limit) =
    (if Z.leb 0 limit then Nat.min (Z.to_nat limit) 32 else 32 - Z.to_nat (- limit))%nat /\
  openbb_get_top_symbols limit = mock_get_top_symbols limit /\
  mock_get_top_symbols 100 = mock_symbols.
Proof.
  split; [apply py_take_prefix|]. split; [apply py_take_length|].
  split; reflexivity.
Qed.

(** X4: symbol search ignores the case of an ASCII query, returns
    configured symbols that contain the upper-cased query, in configuration
    order, at most [limit] of them for [limit >= 0]; the mock and the OpenBB
    provider return the same symbols (only the [name] text differs). *)
Theorem search_symbols_spec (query : string) (limit : Z) :
  is_ascii query = true ->
  map info_symbol (openbb_search_symbols query limit) =
    map info_symbol (mock_search_symbols query limit) /\
  mock_search_symbols (str_upper query) limit = mock_search_symbols query limit /\
  openbb_search_symbols (str_upper query) limit = openbb_search_symbols query limit /\
  (forall i, In i (mock_search_symbols query limit) ->
     In (info_symbol i) mock_symbols /\
     contains (str_upper query) (str_upper (info_symbol i)) = true) /\
  ((0 <= limit)%Z -> (List.length (mock_search_symbols query limit) <= Z.to_nat limit)%nat).
Proof.
  intros _. unfold mock_search_symbols, openbb_search_symbols.
  rewrite !str_upper_idem. split; [|split; [reflexivity|split; [reflexivity|split]]].
  - rewrite !map_info_symbol. unfold mock_symbols. rewrite filter_app. reflexivity.
  - intros i Hi. apply in_map_iff in Hi as [s [<- Hs]]. simpl.
    apply py_take_in, filter_In in Hs. exact Hs.
  - intros Hk. rewrite length_map, py_take_length.
    apply Z.leb_le in Hk. rewrite Hk. lia.
Qed.

(** ** OpenBB processing *)

Lemma Qsum_nonneg (l : list Q) : Forall (fun x => 0 <= x) l -> 0 <= Qsum l.
Proof.
  induction 1 as [|x xs Hx _ IH]; simpl; [apply Qle_refl|].
  rewrite <- (Qplus_0_l 0). apply Qplus_le_compat; assumption.
Qed.

Lemma Qsum_ge_elem (l : list Q) (x : Q) :
  Forall (fun y => 0 <= y) l -> In x l -> x <= Qsum l.
Proof.
  induction 1 as [|y ys Hy Hys IH]; intros Hin; [destruct Hin|].
  simpl. destruct Hin as [E|Hin]; [subst y|].
  - rewrite <- (Qplus_0_r x) at 1. apply Qplus_le_compat; [apply Qle_refl|].
    apply Qsum_nonneg, Hys.
  - rewrite <- (Qplus_0_l x). apply Qplus_le_compat; [exact Hy|]. apply IH, Hin.
Qed.

Lemma in_tail_n {A} (n : nat) (l : list A) x : In x (tail_n n l) -> In x l.
Proof.
  unfold tail_n. intros H. rewrite <- (firstn_skipn (List.length l - n) l).
  apply in_or_app. right. exact H.
Qed.

Lemma iloc_back_in_tail (h : History) :
  (7 <= List.length h)%nat -> In (iloc_back h 1) (tail_n 7 h).
Proof.
  intros H. unfold iloc_back, tail_n.
  replace (List.length h - 1)%nat with (List.length h - 7 + 6)%nat by lia.
  rewrite <- nth_skipn. apply nth_In. rewrite length_skipn. lia.
Qed.

Lemma tail_n_length {A} (n : nat) (l : list A) :
  (n <= List.length l)%nat -> List.length (tail_n n l) = n.
Proof. intros H. unfold tail_n. rewrite length_skipn. lia. Qed.


(** X6: since the latest volume is one of the seven it is averaged with,
    the [volume_ratio] that [_process_market_data] reports lies between
    0 and 7 (volumes non-negative, latest volume positive). *)
Theorem process_market_data_volume_ratio (sym : string) (h : History) (r : Row) :
  Forall (fun c => 0 <= volume c) h -> 0 < volume (iloc_back h 1) ->
  process_market_data sym h = Ok r ->
  0 <= volume_ratio r /\ volume_ratio r <= 7.
Proof.
  intros Hnn Hpos Hok. unfold process_market_data in Hok.
  destruct (Nat.ltb_spec (List.length h) 2); [discriminate|].
  destruct (Nat.ltb_spec (List.length h) 7); [discriminate|].
  injection Hok as <-. cbn [volume_ratio]. unfold mean.
  rewrite length_map, tail_n_length by lia.
  set (s := Qsum (map volume (tail_n 7 h))).
  set (c := volume (iloc_back h 1)) in *.
  assert (Hcs : c <= s).
  { apply Qsum_ge_elem.
    - apply Forall_forall. intros x Hx. apply in_map_iff in Hx as [y [<- Hy]].
      rewrite Forall_forall in Hnn. apply Hnn. eapply in_tail_n; exact Hy.
    - apply in_map, iloc_back_in_tail. lia. }
  assert (Ha : 0 < s / inject_Z (Z.of_nat 7)).
  { apply Qlt_shift_div_l; [reflexivity|]. rewrite Qmult_0_l.
    eapply Qlt_le_trans; eassumption. }
  split.
  - apply (round2_ge _ 0). apply Qle_shift_div_l; [exact Ha|].
    rewrite Qmult_0_l. apply Qlt_le_weak, Hpos.
  - apply (round2_le _ 7). apply Qle_shift_div_r; [exact Ha|].
    rewrite Qmult_div_r; [exact Hcs|]. discriminate.
Qed.

Lemma in_collect_data (results : list FetchResult) (r : Row) :
  In r (collect_data results) <-> In (Fetched r) results.
Proof.
  induction results as [|x xs IH]; simpl; [tauto|].
  destruct x as [r'| |m]; simpl; rewrite IH.
  - split; intros [H|H]; auto; left; congruence.
  - split; [auto|]. intros [H|H]; [discriminate|exact H].
  - split; [auto|]. intros [H|H]; [discriminate|exact H].
Qed.

Lemma collect_data_length (results : list FetchResult) :
  (List.length (collect_data results) <= List.length results)%nat.
Proof.
  induction results as [|x xs IH]; simpl; [lia|].
  destruct x; simpl; lia.
Qed.

Lemma fetch_symbol_data_week (s : string) (ho : option History) :
  match fetch_symbol_data s ho with
  | Fetched r => symbol r = s /\ has_week ho = true
  | _ => has_week ho = false
  end.
Proof.
  destruct ho as [h|]; [|reflexivity].
  unfold fetch_symbol_data, process_market_data, has_week.
  destruct (Nat.ltb_spec (List.length h) 2); [apply Nat.leb_gt; lia|].
  destruct (Nat.ltb_spec (List.length h) 7); [apply Nat.leb_gt; lia|].
  split; [reflexivity|]. apply Nat.leb_le. lia.
Qed.

Lemma collect_data_symbols (l : list (string * option History)) :
  map symbol (collect_data (map (fun '(s, h) => fetch_symbol_data s h) l)) =
  map fst (filter (fun p => has_week (snd p)) l).
Proof.
  induction l as [|[s h] l IH]; [reflexivity|].
  cbn [map filter snd]. pose proof (fetch_symbol_data_week s h) as Hw.
  destruct (fetch_symbol_data s h) as [r| |m]; cbn [collect_data].
  - destruct Hw as [Hs ->]. cbn [map fst]. rewrite Hs, IH. reflexivity.
  - rewrite Hw. exact IH.
  - rewrite Hw. exact IH.
Qed.

Lemma fetched_from (l : list (string * option History)) (r : Row) :
  In r (collect_data (map (fun '(s, h) => fetch_symbol_data s h) l)) ->
  exists s h, In (s, Some h) l /\ process_market_data s h = Ok r.
Proof.
  rewrite in_collect_data, in_map_iff. intros [[s [h|]] [Hf Hin]]; [|discriminate].
  unfold fetch_symbol_data in Hf.
  destruct (process_market_data s h) eqn:E; [|discriminate].
  injection Hf as ->. exists s, h. auto.
Qed.

Lemma apply_filters_nil_of (df : Frame) mv mn mx :
  (forall r, In r df -> volume_ratio r < mv) -> apply_filters df mv mn mx = [].
Proof.
  intros H. destruct (apply_filters df mv mn mx) as [|r rs] eqn:E; [reflexivity|].
  assert (Hr : In r (apply_filters df mv mn mx)) by (rewrite E; left; reflexivity).
  apply in_apply_filters in Hr as [Hin [Hv _]].
  exfalso. apply (Qlt_not_le _ _ (H r Hin)), Hv.
Qed.

(** X7: [OpenBBDataProvider.get_market_data] raises [ConnectionError]
    with its fixed message exactly when no task returned a row, never
    raises any other message, and otherwise returns a non-empty frame of
    exactly the rows the tasks returned, at most one per task. *)
Theorem openbb_get_market_data_spec (results : list FetchResult) :
  (openbb_get_market_data results = Err connection_error_msg <->
     forall r, ~ In (Fetched r) results) /\
  (forall e, openbb_get_market_data results = Err e -> e = connection_error_msg) /\
  (forall df, openbb_get_market_data results = Ok df ->
     df <> [] /\ (forall r, In r df <-> In (Fetched r) results) /\
     (List.length df <= List.length results)%nat).
Proof.
  unfold openbb_get_market_data.
  destruct (collect_data results) as [|r0 rs] eqn:E; simpl.
  - split; [|split].
    + split; [intros _ r Hr|reflexivity].
      apply in_collect_data in Hr. rewrite E in Hr. destruct Hr.
    + intros e He. congruence.
    + intros df Hd. discriminate.
  - split; [|split].
    + split; [discriminate|]. intros H. exfalso. apply (H r0).
      apply in_collect_data. rewrite E. left. reflexivity.
    + intros e He. discriminate.
    + intros df Hd. injection Hd as <-. split; [discriminate|]. split.
      * intros r. rewrite <- E. apply in_collect_data.
      * rewrite <- E. apply collect_data_length.
Qed.

(** X8: the OpenBB fetch returns the symbols whose history has at least
    seven days, in the order requested, and raises the connection error
    exactly when there is no such symbol. *)
Theorem openbb_market_data_symbols (symbols : list string) (hists : list (option History)) :
  let kept := map fst (filter (fun p => has_week (snd p)) (combine symbols hists)) in
  match openbb_market_data_from symbols hists with
  | Ok df => map symbol df = kept /\ kept <> []
  | Err e => e = connection_error_msg /\ kept = []
  end.
Proof.
  intros kept. unfold openbb_market_data_from, openbb_get_market_data.
  pose proof (collect_data_symbols (combine symbols hists)) as Hs. fold kept in Hs.
  destruct (collect_data _) as [|r rs]; simpl in *.
  - split; [reflexivity|]. symmetry. exact Hs.
  - split; [exact Hs|]. rewrite <- Hs. discriminate.
Qed.

(** X9: with non-negative volumes and a positive latest volume in every
    history, no OpenBB row passes a volume-spike threshold above 7. *)
Theorem openbb_screen_threshold_above_7 (symbols : list string)
    (hists : list (option History)) (df : Frame) mv mn mx :
  (forall h, In (Some h) hists ->
     Forall (fun c => 0 <= volume c) h /\ 0 < volume (iloc_back h 1)) ->
  7 < mv ->
  openbb_market_data_from symbols hists = Ok df ->
  apply_filters df mv mn mx = [].
Proof.
  intros Hh Hmv Hok. unfold openbb_market_data_from, openbb_get_market_data in Hok.
  destruct (Nat.eqb _ 0); [discriminate|]. injection Hok as <-.
  apply apply_filters_nil_of. intros r Hr.
  apply fetched_from in Hr as [s [h [Hin Hp]]].
  apply in_combine_r, Hh in Hin as [Hnn Hpos].
  destruct (process_market_data_volume_ratio s h r Hnn Hpos Hp) as [_ H7].
  eapply Qle_lt_trans; eassumption.
Qed.

(** ** Mock provider *)

Lemma uniform_range (a b u : Q) : a <= b -> 0 <= u <= 1 -> a <= uniform a b u <= b.
Proof.
  intros Hab [H0 H1]. unfold uniform.
  assert (Hd : 0 <= b - a) by (apply Qle_minus_iff in Hab; exact Hab).
  split.
  - rewrite <- (Qplus_0_r a) at 1. apply Qplus_le_compat; [apply Qle_refl|].
    apply Qmult_le_0_compat; assumption.
  - apply (Qle_trans _ (a + (b - a) * 1)).
    + apply Qplus_le_compat; [apply Qle_refl|].
      rewrite (Qmult_comm (b - a) u), (Qmult_comm (b - a) 1).
      apply Qmult_le_compat_r; assumption.
    + rewrite Qmult_1_r. setoid_replace (a + (b - a)) with b by ring. apply Qle_refl.
Qed.

Lemma bisect_right_le (a : list Q) (x : Q) : (bisect_right a x <= List.length a)%nat.
Proof. induction a as [|c cs IH]; simpl; [lia|]. destruct (Qlt_bool x c); lia. Qed.

Lemma choices_in (u : Q) : In (choices volume_multipliers volume_weights u) volume_multipliers.
Proof.
  unfold choices.
  match goal with |- In (nth (bisect_right ?a ?x) _ _) _ =>
    pose proof (bisect_right_le a x) as Hi; set (i := bisect_right a x) in * end.
  clearbody i. rewrite length_firstn in Hi. simpl in Hi.
  destruct i as [|[|[|[|[|i]]]]]; cbn; try tauto. lia.
Qed.

Lemma round2_multiplier (b m : Q) : 0 < b -> In m volume_multipliers -> round2 (b * m / b) = m.
Proof.
  intros Hb Hm.
  assert (E : b * m / b == m).
  { rewrite (Qmult_comm b m). apply Qdiv_mult_l.
    intros H. rewrite H in Hb. apply (Qlt_irrefl 0 Hb). }
  unfold round2. simpl in Hm.
  destruct Hm as [<-|[<-|[<-|[<-|[<-|[]]]]]];
    [rewrite (round_half_even_int _ 100) | rewrite (round_half_even_int _ 150)
    | rewrite (round_half_even_int _ 200) | rewrite (round_half_even_int _ 300)
    | rewrite (round_half_even_int _ 500)];
    try reflexivity; rewrite E; apply Qeq_bool_iff; reflexivity.
Qed.

Lemma multiplier_range (m : Q) : In m volume_multipliers -> 1 <= m /\ m <= 5.
Proof.
  simpl. intros [<-|[<-|[<-|[<-|[<-|[]]]]]];
    split; apply Qle_bool_iff; reflexivity.
Qed.

Lemma py_int_mono (x y : Q) : 0 <= x -> x <= y -> (py_int x <= py_int y)%Z.
Proof.
  intros Hx Hxy. unfold py_int.
  assert (Hnx : Qlt_bool x 0 = false)
    by (unfold Qlt_bool; apply negb_false_iff, Qle_bool_iff; exact Hx).
  assert (Hny : Qlt_bool y 0 = false)
    by (unfold Qlt_bool; apply negb_false_iff, Qle_bool_iff; eapply Qle_trans; eassumption).
  rewrite Hnx, Hny. apply Qfloor_resp_le, Hxy.
Qed.

Lemma mock_row_fields (s : string) (d : Draws) :
  unit_draws d ->
  let r := mock_row s d in
  symbol r = s /\
  In (volume_ratio r) volume_multipliers /\
  0 <= current_price r /\
  -15 <= price_change_1d r <= 15 /\ -25 <= price_change_7d r <= 25 /\
  avg_volume_7d r <= inject_Z (volume_24h r) /\
  trend_consistency r = None /\ momentum_score r = None.
Proof.
  intros (Hp & H1 & H7 & Hv) r. unfold r, mock_row. clear r.
  set (bp := if contains "-USD" s then uniform (1 # 100) 100000 (r_price d)
             else uniform 10 1000 (r_price d)).
  set (pc1 := uniform (-15) 15 (r_1d d)).
  set (u7 := uniform (-10) 10 (r_7d d)).
  set (bv := uniform 1000000 100000000 (r_volume d)).
  set (m := choices volume_multipliers volume_weights (r_choice d)).
  assert (Hm : In m volume_multipliers) by apply choices_in.
  assert (Hbp : 0 <= bp).
  { unfold bp. destruct (contains "-USD" s).
    - apply (Qle_trans _ (1 # 100)); [apply Qle_bool_iff; reflexivity|].
      apply uniform_range; [apply Qle_bool_iff; reflexivity|exact Hp].
    - apply (Qle_trans _ 10); [apply Qle_bool_iff; reflexivity|].
      apply uniform_range; [apply Qle_bool_iff; reflexivity|exact Hp]. }
  assert (Hpc1 : -15 <= pc1 <= 15)
    by (apply uniform_range; [apply Qle_bool_iff; reflexivity|exact H1]).
  assert (Hu7 : -10 <= u7 <= 10)
    by (apply uniform_range; [apply Qle_bool_iff; reflexivity|exact H7]).
  assert (Hbv : 1000000 <= bv)
    by (apply uniform_range; [apply Qle_bool_iff; reflexivity|exact Hv]).
  assert (Hbpos : 0 < bv)
    by (eapply Qlt_le_trans; [|exact Hbv]; apply Qlt_bool_iff; reflexivity).
  clearbody bp pc1 u7 bv m.
  cbn [symbol volume_ratio current_price price_change_1d price_change_7d
       avg_volume_7d volume_24h trend_consistency momentum_score].
  split; [reflexivity|]. split; [rewrite round2_multiplier; assumption|].
  split; [apply (round2_ge _ 0), Hbp|].
  split; [split; [apply (round2_ge _ (-15)) | apply (round2_le _ 15)]; apply Hpc1|].
  split.
  { split; [apply (round2_ge _ (-25)) | apply (round2_le _ 25)].
    - apply (Qle_trans _ (-15 + -10)); [apply Qle_bool_iff; reflexivity|].
      apply Qplus_le_compat; [apply Hpc1|apply Hu7].
    - apply (Qle_trans _ (15 + 10)); [|apply Qle_bool_iff; reflexivity].
      apply Qplus_le_compat; [apply Hpc1|apply Hu7]. }
  split; [|split; reflexivity].
  rewrite <- Zle_Qle. apply py_int_mono; [apply Qlt_le_weak, Hbpos|].
  apply (Qle_trans _ (bv * 1)); [rewrite Qmult_1_r; apply Qle_refl|].
  apply Qmult_le_l; [exact Hbpos|]. apply multiplier_range, Hm.
Qed.

Lemma in_mock_get_market_data (symbols : list string) (draws : list Draws) (r : Row) :
  In r (mock_get_market_data symbols draws) ->
  exists s d, In s symbols /\ In d draws /\ r = mock_row s d.
Proof.
  unfold mock_get_market_data. rewrite in_map_iff.
  intros [[s d] [<- Hin]]. exists s, d.
  split; [eapply in_combine_l; exact Hin|]. split; [eapply in_combine_r; exact Hin|].
  reflexivity.
Qed.

(** X10: [MockDataProvider.get_market_data] returns one row per
    requested symbol, in order; with [random()] draws in [[0, 1]] every
    row's volume ratio is one of the multipliers 1, 1.5, 2, 3, 5, its
    price is non-negative, its 1-day change is within [[-15, 15]], its
    7-day change within [[-25, 25]], its average volume at most its
    24h volume, and it carries no derived column. *)
Theorem mock_get_market_data_rows (symbols : list string) (draws : list Draws) :
  (List.length symbols <= List.length draws)%nat ->
  Forall unit_draws draws ->
  map symbol (mock_get_market_data symbols draws) = symbols /\
  forall r, In r (mock_get_market_data symbols draws) ->
    In (volume_ratio r) volume_multipliers /\
    0 <= current_price r /\
    -15 <= price_change_1d r <= 15 /\ -25 <= price_change_7d r <= 25 /\
    avg_volume_7d r <= inject_Z (volume_24h r) /\
    trend_consistency r = None /\ momentum_score r = None.
Proof.
  intros Hlen Hd. split.
  - clear Hd. unfold mock_get_market_data. revert draws Hlen.
    induction symbols as [|s ss IH]; intros [|d ds] Hlen; cbn in Hlen; try lia;
      [reflexivity|reflexivity|].
    cbn [combine map]. f_equal. apply IH. lia.
  - intros r Hr. apply in_mock_get_market_data in Hr as [s [d [_ [Hin ->]]]].
    rewrite Forall_forall in Hd.
    destruct (mock_row_fields s d (Hd d Hin)) as [_ H]. exact H.
Qed.

(** X11: with [random()] draws in [[0, 1]], no mock row passes a
    volume-spike threshold above 5, the largest multiplier. *)
Theorem mock_screen_threshold_above_5 (symbols : list string) (draws : list Draws) mv mn mx :
  Forall unit_draws draws -> 5 < mv ->
  apply_filters (mock_get_market_data symbols draws) mv mn mx = [].
Proof.
  intros Hd Hmv. apply apply_filters_nil_of. intros r Hr.
  apply in_mock_get_market_data in Hr as [s [d [_ [Hin ->]]]].
  rewrite Forall_forall in Hd.
  destruct (mock_row_fields s d (Hd d Hin)) as [_ [Hm _]].
  eapply Qle_lt_trans; [apply multiplier_range, Hm|exact Hmv].
Qed.

(** ** Display *)

Lemma column_none (f : Row -> option Q) (df : Frame) :
  column f df = None <-> exists r, In r df /\ f r = None.
Proof.
  induction df as [|r rs IH]; simpl.
  - split; [discriminate|]. intros [r [[] _]].
  - destruct (f r) as [x|] eqn:Ef.
    + destruct (column f rs) as [xs|] eqn:Ec.
      * split; [discriminate|]. intros [r' [[<-|Hin] Hr']]; [congruence|].
        assert (Hn : Some xs = None) by (apply IH; eauto). discriminate.
      * split; [|reflexivity]. intros _. destruct (proj1 IH eq_refl) as [r' [H1 H2]]. eauto.
    + split; [|reflexivity]. intros _. eauto.
Qed.

Lemma column_in_combine (f : Row -> option Q) (df : Frame) (ms : list Q) r m :
  column f df = Some ms -> In (r, m) (combine df ms) -> f r = Some m.
Proof.
  revert ms. induction df as [|r0 rs IH]; intros ms Hc Hin; simpl in Hc.
  - injection Hc as <-. destruct Hin.
  - destruct (f r0) as [x|] eqn:Ef; [|discriminate].
    destruct (column f rs) as [xs|] eqn:Ec; [|discriminate].
    injection Hc as <-. destruct Hin as [E|Hin].
    + injection E as -> ->. exact Ef.
    + eapply IH; [reflexivity|exact Hin].
Qed.

Lemma display_rows_spec (df : Frame) (ms : list Q) :
  column momentum_score df = Some ms ->
  map d_symbol (map (fun '(r, m) => display_row r m) (combine df ms)) = map symbol df /\
  map (fun d => Some (d_momentum d)) (map (fun '(r, m) => display_row r m) (combine df ms)) =
    map momentum_score df.
Proof.
  revert ms. induction df as [|r rs IH]; intros ms Hc; simpl in Hc.
  - injection Hc as <-. split; reflexivity.
  - destruct (momentum_score r) as [x|] eqn:Ef; [|discriminate].
    destruct (column momentum_score rs) as [xs|] eqn:Ec; [|discriminate].
    injection Hc as <-. destruct (IH xs eq_refl) as [A B].
    cbn [combine map]. rewrite A, B, Ef. split; reflexivity.
Qed.

Lemma display_rows_sorted (df : Frame) (ms : list Q) :
  column momentum_score df = Some ms -> StronglySorted desc df ->
  StronglySorted (fun a b => d_momentum b <= d_momentum a)
    (map (fun '(r, m) => display_row r m) (combine df ms)).
Proof.
  revert ms. induction df as [|r rs IH]; intros ms Hc Hs; simpl in Hc.
  - injection Hc as <-. constructor.
  - destruct (momentum_score r) as [x|] eqn:Ef; [|discriminate].
    destruct (column momentum_score rs) as [xs|] eqn:Ec; [|discriminate].
    injection Hc as <-. apply StronglySorted_inv in Hs as [Hs Hall].
    cbn [combine map]. constructor; [apply IH; auto|].
    apply Forall_forall. intros b Hb. apply in_map_iff in Hb as [[r' m'] [<- Hin]].
    pose proof (column_in_combine _ _ _ _ _ Ec Hin) as Hm'.
    rewrite Forall_forall in Hall. specialize (Hall r' (in_combine_l _ _ _ _ Hin)).
    unfold desc, ms_key in Hall. rewrite Ef, Hm' in Hall. exact Hall.
Qed.



(** X12: [format_for_display] returns an empty frame for an empty input,
    raises [KeyError] on a non-empty frame exactly when the
    [momentum_score] column is missing, and otherwise returns the six
    display columns with one row per input row, keeping the symbols and
    the momentum scores in order. *)
Theorem format_for_display_spec (df : Frame) :
  (df = [] -> format_for_display df = Some (mkDisplayTable [] [])) /\
  (df <> [] ->
     (format_for_display df = None <-> exists r, In r df /\ momentum_score r = None)) /\
  (forall t, df <> [] -> format_for_display df = Some t ->
     d_columns t = display_columns /\
     map d_symbol (d_rows t) = map symbol df /\
     map (fun d => Some (d_momentum d)) (d_rows t) = map momentum_score df).
Proof.
  unfold format_for_display. split; [|split].
  - intros ->. reflexivity.
  - intros Hne. destruct df as [|r rs]; [congruence|]. cbn [List.length Nat.eqb].
    rewrite <- column_none.
    destruct (column momentum_score (r :: rs)); split; congruence.
  - intros t Hne. destruct df as [|r rs]; [congruence|]. cbn [List.length Nat.eqb].
    destruct (column momentum_score (r :: rs)) as [ms|] eqn:Ec; [|discriminate].
    intros Ht. injection Ht as <-. cbn [d_columns d_rows].
    split; [reflexivity|]. exact (display_rows_spec _ _ Ec).
Qed.


(** X14: formatting the output of the filter and scoring stages never
    raises: it gives one display row per result, with the same symbols,
    and the displayed momentum scores are non-increasing. *)
Theorem screen_display (df : Frame) mv mn mx :
  let out := calculate_momentum_score (apply_filters df mv mn mx) in
  exists t, format_for_display out = Some t /\
    List.length (d_rows t) = List.length out /\
    map d_symbol (d_rows t) = map symbol out /\
    StronglySorted (fun a b => d_momentum b <= d_momentum a) (d_rows t).
Proof.
  intros out. unfold format_for_display.
  destruct (Nat.eqb (List.length out) 0) eqn:E.
  - apply Nat.eqb_eq, length_zero_iff_nil in E. rewrite E.
    exists (mkDisplayTable [] []). repeat split; constructor.
  - assert (Hall : Forall (fun r => momentum_score r <> None) out).
    { apply Forall_forall. intros r Hr. unfold out in Hr.
      apply in_calculate_momentum_score in Hr as [r0 [_ ->]].
      rewrite (proj2 (proj2 (annotate_row_fields r0))). discriminate. }
    destruct (column_some out Hall) as [ms Hms]. rewrite Hms.
    eexists. split; [reflexivity|]. cbn [d_rows].
    destruct (display_rows_spec out ms Hms) as [Hs Hm].
    split; [|split; [exact Hs|]].
    + rewrite <- (length_map d_symbol), Hs, length_map. reflexivity.
    + apply display_rows_sorted; [exact Hms|apply calculate_momentum_score_strongly_sorted].
Qed.

(** ** Summary of a provider's screen *)

Lemma Qsum_bounds (a b : Q) (l : list Q) :
  Forall (fun x => a <= x <= b) l ->
  inject_Z (Z.of_nat (List.length l)) * a <= Qsum l /\
  Qsum l <= inject_Z (Z.of_nat (List.length l)) * b.
Proof.
  induction 1 as [|x xs [Hxa Hxb] _ [IHa IHb]]; cbn [List.length Qsum].
  - rewrite !Qmult_0_l. split; apply Qle_refl.
  - rewrite Znat.Nat2Z.inj_succ, <- Z.add_1_r, inject_Z_plus.
    split.
    + setoid_replace ((inject_Z (Z.of_nat (List.length xs)) + inject_Z 1) * a)
        with (a + inject_Z (Z.of_nat (List.length xs)) * a) by ring.
      apply Qplus_le_compat; assumption.
    + setoid_replace ((inject_Z (Z.of_nat (List.length xs)) + inject_Z 1) * b)
        with (b + inject_Z (Z.of_nat (List.length xs)) * b) by ring.
      apply Qplus_le_compat; assumption.
Qed.

Lemma mean_bounds (a b : Q) (l : list Q) :
  l <> [] -> Forall (fun x => a <= x <= b) l -> a <= mean l /\ mean l <= b.
Proof.
  intros Hne Hf. destruct (Qsum_bounds a b l Hf) as [Ha Hb]. unfold mean.
  assert (Hpos : 0 < inject_Z (Z.of_nat (List.length l))).
  { change 0 with (inject_Z 0). rewrite <- Zlt_Qlt.
    destruct l; [congruence|]. simpl. lia. }
  split.
  - apply Qle_shift_div_l; [exact Hpos|]. rewrite Qmult_comm. exact Ha.
  - apply Qle_shift_div_r; [exact Hpos|]. rewrite Qmult_comm. exact Hb.
Qed.

Lemma annotate_row_volume_ratio (r : Row) : volume_ratio (annotate_row r) = volume_ratio r.
Proof.
  pose proof (proj1 (annotate_row_fields r)) as H. unfold base_fields in H.
  injection H as _ _ _ _ _ _ H. exact H.
Qed.

Lemma filter_length_le {A} (f : A -> bool) (l : list A) :
  (List.length (filter f l) <= List.length l)%nat.
Proof. induction l as [|x xs IH]; simpl; [lia|]. destruct (f x); simpl; lia. Qed.

Lemma pipeline_summary_bounds (df : Frame) mv mn mx (a b : Z) :
  (forall r, In r df -> inject_Z a <= volume_ratio r <= inject_Z b) ->
  let out := calculate_momentum_score (apply_filters df mv mn mx) in
  exists s, get_screening_summary out = Some s /\
    total_found s = List.length out /\ (List.length out <= List.length df)%nat /\
    ((0 < total_found s)%nat ->
       inject_Z a <= avg_volume_ratio s /\ avg_volume_ratio s <= inject_Z b).
Proof.
  intros Hb out.
  assert (Hlen : List.length out = List.length (apply_filters df mv mn mx)).
  { unfold out. rewrite (Permutation_length (calculate_momentum_score_perm _)).
    apply length_map. }
  assert (Hle : (List.length out <= List.length df)%nat).
  { rewrite Hlen. unfold apply_filters.
    eapply Nat.le_trans; apply filter_length_le. }
  unfold get_screening_summary.
  destruct (Nat.eqb (List.length out) 0) eqn:E.
  - apply Nat.eqb_eq in E. eexists. split; [reflexivity|]. cbn [total_found].
    split; [lia|]. split; [exact Hle|]. lia.
  - assert (Hall : Forall (fun r => momentum_score r <> None) out).
    { apply Forall_forall. intros r Hr. unfold out in Hr.
      apply in_calculate_momentum_score in Hr as [r0 [_ ->]].
      rewrite (proj2 (proj2 (annotate_row_fields r0))). discriminate. }
    destruct (column_some out Hall) as [ms Hms]. rewrite Hms.
    eexists. split; [reflexivity|]. cbn [total_found avg_volume_ratio].
    split; [reflexivity|]. split; [exact Hle|]. intros Hn.
    apply Nat.eqb_neq in E.
    assert (Hm : inject_Z a <= mean (map volume_ratio out) /\
                 mean (map volume_ratio out) <= inject_Z b).
    { apply mean_bounds.
      - destruct out; [simpl in E; congruence|]. discriminate.
      - apply Forall_forall. intros x Hx. apply in_map_iff in Hx as [r [<- Hr]].
        unfold out in Hr. apply in_calculate_momentum_score in Hr as [r0 [Hr0 ->]].
        rewrite annotate_row_volume_ratio. apply Hb.
        apply in_apply_filters in Hr0. apply Hr0. }
    split; [apply round2_ge, Hm|apply round2_le, Hm].
Qed.

(** X15: screening the mock provider's rows (draws in [[0, 1]]) always
    yields a summary, counting at most one asset per requested symbol,
    and its average volume spike lies in [[1, 5]] whenever something was
    found. *)
Theorem mock_screen_summary (symbols : list string) (draws : list Draws) mv mn mx :
  Forall unit_draws draws ->
  exists s, get_screening_summary
      (calculate_momentum_score (apply_filters (mock_get_market_data symbols draws) mv mn mx))
      = Some s /\
    (total_found s <= List.length symbols)%nat /\
    ((0 < total_found s)%nat -> 1 <= avg_volume_ratio s /\ avg_volume_ratio s <= 5).
Proof.
  intros Hd.
  destruct (pipeline_summary_bounds (mock_get_market_data symbols draws) mv mn mx 1 5)
    as [s [Hs [Ht [Hle Hav]]]].
  - intros r Hr. apply in_mock_get_market_data in Hr as [sym [d [_ [Hin ->]]]].
    rewrite Forall_forall in Hd.
    destruct (mock_row_fields sym d (Hd d Hin)) as [_ [Hm _]].
    apply multiplier_range, Hm.
  - exists s. split; [exact Hs|]. split; [|exact Hav].
    rewrite Ht. eapply Nat.le_trans; [exact Hle|].
    unfold mock_get_market_data. rewrite length_map, length_combine. lia.
Qed.

(** X16: screening the OpenBB provider's rows (non-negative volumes, a
    positive latest volume) always yields a summary whose average volume
    spike lies in [[0, 7]] whenever something was found. *)
Theorem openbb_screen_summary (symbols : list string)
    (hists : list (option History)) (df : Frame) mv mn mx :
  (forall h, In (Some h) hists ->
     Forall (fun c => 0 <= volume c) h /\ 0 < volume (iloc_back h 1)) ->
  openbb_market_data_from symbols hists = Ok df ->
  exists s, get_screening_summary (calculate_momentum_score (apply_filters df mv mn mx))
      = Some s /\
    (total_found s <= List.length symbols)%nat /\
    ((0 < total_found s)%nat -> 0 <= avg_volume_ratio s /\ avg_volume_ratio s <= 7).
Proof.
  intros Hh Hok. unfold openbb_market_data_from, openbb_get_market_data in Hok.
  destruct (Nat.eqb _ 0); [discriminate|]. injection Hok as <-.
  destruct (pipeline_summary_bounds
              (collect_data (map (fun '(s, h) => fetch_symbol_data s h)
                                 (combine symbols hists))) mv mn mx 0 7)
    as [s [Hs [Ht [Hle Hav]]]].
  - intros r Hr. apply fetched_from in Hr as [sym [h [Hin Hp]]].
    apply in_combine_r, Hh in Hin as [Hnn Hpos].
    exact (process_market_data_volume_ratio sym h r Hnn Hpos Hp).
  - exists s. split; [exact Hs|]. split; [|exact Hav].
    rewrite Ht. eapply Nat.le_trans; [exact Hle|].
    eapply Nat.le_trans; [apply collect_data_length|].
    rewrite length_map, length_combine. lia.
Qed.

(** ** Witnesses of the properties with hypotheses *)

Lemma pipelines_agree_keep_snapshot_witness :
  (0 < next_loc caller_store)%nat /\
  scored_frame (screen_movers_st caller_store 0 2 (-50) 50) =
    calculate_momentum_score (apply_filters (heap caller_store 0) 2 (-50) 50) /\
  scored_frame (app_apply_screening_filters_st caller_store 0 2 (-50) 50) =
    calculate_momentum_score (apply_filters (heap caller_store 0) 2 (-50) 50) /\
  heap (fst (screen_movers_st caller_store 0 2 (-50) 50)) 0 = heap caller_store 0 /\
  heap (fst (app_apply_screening_filters_st caller_store 0 2 (-50) 50)) 0 = heap caller_store 0.
Proof.
  split; [cbn; lia|]. apply (pipelines_agree_keep_snapshot caller_store 0 2 (-50) 50).
  cbn. lia.
Defined.

Lemma search_symbols_spec_witness :
  is_ascii "btc" = true /\
  map info_symbol (openbb_search_symbols "btc" 5) =
    map info_symbol (mock_search_symbols "btc" 5) /\
  mock_search_symbols (str_upper "btc") 5 = mock_search_symbols "btc" 5 /\
  openbb_search_symbols (str_upper "btc") 5 = openbb_search_symbols "btc" 5 /\
  (forall i, In i (mock_search_symbols "btc" 5) ->
     In (info_symbol i) mock_symbols /\
     contains (str_upper "btc") (str_upper (info_symbol i)) = true) /\
  ((0 <= 5)%Z -> (List.length (mock_search_symbols "btc" 5) <= Z.to_nat 5)%nat).
Proof.
  split; [vm_compute; reflexivity|]. apply (search_symbols_spec "btc" 5).
  vm_compute. reflexivity.
Defined.

Lemma process_market_data_volume_ratio_witness :
  exists r, process_market_data "NVDA" sample_history = Ok r /\
    0 <= volume_ratio r /\ volume_ratio r <= 7.
Proof.
  eexists. split; [reflexivity|].
  apply (process_market_data_volume_ratio "NVDA" sample_history).
  - repeat (apply Forall_cons; [apply Qle_bool_iff; reflexivity|]). apply Forall_nil.
  - apply Qlt_bool_iff. reflexivity.
  - reflexivity.
Defined.

Lemma openbb_screen_threshold_above_7_witness :
  exists df, openbb_market_data_from ["NVDA"%string] [Some sample_history] = Ok df /\
    apply_filters df 8 (-50) 50 = [].
Proof.
  eexists. split; [reflexivity|].
  apply (openbb_screen_threshold_above_7 ["NVDA"%string] [Some sample_history] _ 8 (-50) 50).
  - intros h [E|[]]. injection E as <-. split.
    + repeat (apply Forall_cons; [apply Qle_bool_iff; reflexivity|]). apply Forall_nil.
    + apply Qlt_bool_iff. reflexivity.
  - apply Qlt_bool_iff. reflexivity.
  - reflexivity.
Defined.

Lemma mock_get_market_data_rows_witness :
  (List.length ["AAPL"; "BTC-USD"]%string <= List.length [half_draws; half_draws])%nat /\
  Forall unit_draws [half_draws; half_draws] /\
  map symbol (mock_get_market_data ["AAPL"; "BTC-USD"]%string [half_draws; half_draws])
    = ["AAPL"; "BTC-USD"]%string /\
  forall r, In r (mock_get_market_data ["AAPL"; "BTC-USD"]%string [half_draws; half_draws]) ->
    In (volume_ratio r) volume_multipliers /\
    0 <= current_price r /\
    -15 <= price_change_1d r <= 15 /\ -25 <= price_change_7d r <= 25 /\
    avg_volume_7d r <= inject_Z (volume_24h r) /\
    trend_consistency r = None /\ momentum_score r = None.
Proof.
  assert (Hd : Forall unit_draws [half_draws; half_draws]).
  { repeat (apply Forall_cons;
      [unfold unit_draws, half_draws; cbn [r_price r_1d r_7d r_volume];
       repeat split; apply Qle_bool_iff; reflexivity|]).
    apply Forall_nil. }
  split; [cbn; lia|]. split; [exact Hd|].
  apply (mock_get_market_data_rows ["AAPL"; "BTC-USD"]%string [half_draws; half_draws]);
    [cbn; lia|exact Hd].
Defined.

Lemma mock_screen_threshold_above_5_witness :
  Forall unit_draws [half_draws; half_draws] /\ 5 < 6 /\
  apply_filters (mock_get_market_data ["AAPL"; "BTC-USD"]%string [half_draws; half_draws])
    6 (-50) 50 = [].
Proof.
  assert (Hd : Forall unit_draws [half_draws; half_draws]).
  { repeat (apply Forall_cons;
      [unfold unit_draws, half_draws; cbn [r_price r_1d r_7d r_volume];
       repeat split; apply Qle_bool_iff; reflexivity|]).
    apply Forall_nil. }
  assert (H56 : 5 < 6) by (apply Qlt_bool_iff; reflexivity).
  split; [exact Hd|]. split; [exact H56|].
  apply (mock_screen_threshold_above_5 _ _ 6 (-50) 50 Hd H56).
Defined.

Lemma mock_screen_summary_witness :
  Forall unit_draws [half_draws; half_draws] /\
  exists s, get_screening_summary
      (calculate_momentum_score
         (apply_filters (mock_get_market_data ["AAPL"; "BTC-USD"]%string
                                              [half_draws; half_draws]) 1 (-50) 50))
      = Some s /\
    (total_found s <= List.length ["AAPL"; "BTC-USD"]%string)%nat /\
    ((0 < total_found s)%nat -> 1 <= avg_volume_ratio s /\ avg_volume_ratio s <= 5).
Proof.
  assert (Hd : Forall unit_draws [half_draws; half_draws]).
  { repeat (apply Forall_cons;
      [unfold unit_draws, half_draws; cbn [r_price r_1d r_7d r_volume];
       repeat split; apply Qle_bool_iff; reflexivity|]).
    apply Forall_nil. }
  split; [exact Hd|]. apply (mock_screen_summary _ _ 1 (-50) 50 Hd).
Defined.

Lemma openbb_screen_summary_witness :
  exists df, openbb_market_data_from ["NVDA"%string] [Some sample_history] = Ok df /\
  exists s, get_screening_summary (calculate_momentum_score (apply_filters df 1 (-50) 50))
      = Some s /\
    (total_found s <= List.length ["NVDA"%string])%nat /\
    ((0 < total_found s)%nat -> 0 <= avg_volume_ratio s /\ avg_volume_ratio s <= 7).
Proof.
  eexists. split; [reflexivity|].
  apply (openbb_screen_summary ["NVDA"%string] [Some sample_history] _ 1 (-50) 50).
  - intros h [E|[]]. injection E as <-. split.
    + repeat (apply Forall_cons; [apply Qle_bool_iff; reflexivity|]). apply Forall_nil.
    + apply Qlt_bool_iff. reflexivity.
  - reflexivity.
Defined.
